(** * Soft Actor-Critic agent of tf2rl ([tf2rl/algos/sac_old_v1.py])

    A shallow embedding of the [SAC] agent: its constructor, its
    training step ([train], [_train_body]), action selection
    ([get_action]) and the TD-error query ([compute_td_error]).

    - Scalars are IEEE binary32 data, the [tf.float32] of the source,
      with the arithmetic of [SpecFloat]; tensors carry their shape.
    - A method is a function of the agent (the record of its
      attributes) and of the state of the random generator, and returns
      the agent and the generator as the call leaves them, or the
      exception that it raises.
    - What the source takes from TensorFlow, Keras and from modules of
      the package that are not in the file (the Gaussian actor, the
      target update, the optimizer, automatic differentiation, the
      reductions, [exp]) is an interface, [Backend]; the theorems hold
      for every instance of it. *)

From Stdlib Require Import String ZArith List Bool Lia PeanoNat.
From Stdlib Require Import Floats.SpecFloat.
Import ListNotations.

Set Implicit Arguments.

(* ================================================================= *)
(** ** binary32 scalars *)

Module F32.

Definition prec : Z := 24.
Definition emax : Z := 128.

Definition t := spec_float.

Definition add : t -> t -> t := SFadd prec emax.
Definition sub : t -> t -> t := SFsub prec emax.
Definition mul : t -> t -> t := SFmul prec emax.
Definition neg : t -> t := SFopp.

(** Conversion of a Python [int] (or of a literal such as [1.]) to a
    [float32] constant. *)
Definition of_Z (z : Z) : t := binary_normalize prec emax z 0 false.

Definition zero : t := S754_zero false.
Definition one : t := of_Z 1.
Definition inf : t := S754_infinity false.
Definition nan : t := S754_nan.

Definition is_finite (x : t) : bool :=
  match x with
  | S754_zero _ | S754_finite _ _ _ => true
  | S754_infinity _ | S754_nan => false
  end.

Definition is_zero (x : t) : bool :=
  match x with S754_zero _ => true | _ => false end.

(** Numerical identity: the same datum, the two signed zeros being
    identified (as [==] does on floats, except that here a NaN is the
    same as a NaN). *)
Definition same (x y : t) : Prop :=
  x = y \/ (is_zero x = true /\ is_zero y = true).

End F32.

(* ================================================================= *)
(** ** Exceptions and fallible computations *)

Inductive exn : Type :=
| AssertionError
| AttributeError (attr : string)
| IndexError
| UnboundLocalError (var : string)
| ShapeError                (* a shape that a TensorFlow operation rejects *)
| LayerError.               (* an error raised inside a Keras layer *)

Inductive result (A : Type) : Type :=
| Ok (a : A)
| Raise (e : exn).

Arguments Ok {A} a.
Arguments Raise {A} e.

Definition bind {A B} (m : result A) (k : A -> result B) : result B :=
  match m with
  | Ok a => k a
  | Raise e => Raise e
  end.

Notation "x <- m ;; k" := (bind m (fun x => k))
  (at level 61, m at next level, right associativity).
Notation "' pat <- m ;; k" := (bind m (fun x => match x with pat => k end))
  (at level 61, pat pattern, m at next level, right associativity).

(** Python's [assert]. *)
Definition assert (b : bool) : result unit :=
  if b then Ok tt else Raise AssertionError.

(** Reading an attribute that the constructor may not have set. *)
Definition getattr {A} (name : string) (o : option A) : result A :=
  match o with
  | Some a => Ok a
  | None => Raise (AttributeError name)
  end.

(** Reading a local variable that a branch not taken would have bound. *)
Definition getlocal {A} (name : string) (o : option A) : result A :=
  match o with
  | Some a => Ok a
  | None => Raise (UnboundLocalError name)
  end.

(* ================================================================= *)
(** ** Tensors *)

Record tensor : Type := { shape : list nat; data : list F32.t }.

Definition rank (x : tensor) : nat := length (shape x).

Definition numel (sh : list nat) : nat := fold_right Nat.mul 1 sh.

Definition shape_eqb (a b : list nat) : bool :=
  if list_eq_dec Nat.eq_dec a b then true else false.

Fixpoint zip_with {A B C} (f : A -> B -> C) (l : list A) (k : list B) : list C :=
  match l, k with
  | a :: l', b :: k' => f a b :: zip_with f l' k'
  | _, _ => []
  end.

(** *** Broadcasting

    Shapes are aligned on their last dimension; two dimensions are
    compatible when they are equal or one of them is 1. *)

Fixpoint bshape_rev (a b : list nat) : option (list nat) :=
  match a, b with
  | [], _ => Some b
  | _, [] => Some a
  | x :: a', y :: b' =>
      match bshape_rev a' b' with
      | None => None
      | Some r =>
          if x =? y then Some (x :: r)
          else if x =? 1 then Some (y :: r)
          else if y =? 1 then Some (x :: r)
          else None
      end
  end.

Definition broadcast_shape (a b : list nat) : option (list nat) :=
  option_map (@rev nat) (bshape_rev (rev a) (rev b)).

Definition pad_shape (n : nat) (sh : list nat) : list nat :=
  repeat 1 (n - length sh) ++ sh.

Definition chunks {A} (n k : nat) (d : list A) : list (list A) :=
  map (fun i => firstn k (skipn (i * k) d)) (seq 0 n).

(** [broadcast_to sh tg d]: the row-major data [d] of shape [sh]
    repeated to the shape [tg] (of the same rank). *)
Fixpoint broadcast_to {A} (sh tg : list nat) (d : list A) : list A :=
  match sh, tg with
  | n :: sh', m :: tg' =>
      if n =? m
      then concat (map (broadcast_to sh' tg') (chunks n (numel sh') d))
      else concat (repeat (broadcast_to sh' tg' d) m)
  | _, _ => d
  end.

(** An element-wise binary operation on two tensors. *)
Definition tf_binop (f : F32.t -> F32.t -> F32.t) (x y : tensor) : result tensor :=
  if shape_eqb (shape x) (shape y)
  then Ok {| shape := shape x; data := zip_with f (data x) (data y) |}
  else
    match broadcast_shape (shape x) (shape y) with
    | None => Raise ShapeError
    | Some sh =>
        let n := length sh in
        Ok {| shape := sh;
              data := zip_with f
                        (broadcast_to (pad_shape n (shape x)) sh (data x))
                        (broadcast_to (pad_shape n (shape y)) sh (data y)) |}
    end.

(** A Python scalar (or a rank-0 variable) combined with a tensor. *)
Definition tf_map (f : F32.t -> F32.t) (x : tensor) : tensor :=
  {| shape := shape x; data := map f (data x) |}.

(** [tf.squeeze(x, axis=1)] *)
Definition squeeze_axis1 (x : tensor) : result tensor :=
  match shape x with
  | b :: 1 :: rest => Ok {| shape := b :: rest; data := data x |}
  | _ => Raise ShapeError
  end.

(** [np.expand_dims(x, axis=0)] *)
Definition expand_dims0 (x : tensor) : tensor :=
  {| shape := 1 :: shape x; data := data x |}.

(** [tf.expand_dims(x, axis=1)] *)
Definition expand_dims1 (x : tensor) : result tensor :=
  match shape x with
  | b :: rest => Ok {| shape := b :: 1 :: rest; data := data x |}
  | [] => Raise ShapeError
  end.

(** [x[0]] on a numpy array. *)
Definition index0 (x : tensor) : result tensor :=
  match shape x with
  | S _ :: rest => Ok {| shape := rest; data := firstn (numel rest) (data x) |}
  | _ => Raise IndexError
  end.

(** [tf.concat((x, y), axis=1)]: both operands have the same rank (at
    least 2) and agree on every dimension but the second. *)
Definition concat_axis1 (x y : tensor) : result tensor :=
  match shape x, shape y with
  | b :: n :: r, b' :: m :: r' =>
      if (b =? b') && shape_eqb r r'
      then Ok {| shape := b :: (n + m) :: r;
                 data := concat (zip_with (@app F32.t)
                                   (chunks b (n * numel r) (data x))
                                   (chunks b (m * numel r) (data y))) |}
      else Raise ShapeError
  | _, _ => Raise ShapeError
  end.

(** [np.zeros(shape=sh, dtype=np.float32)] *)
Definition zeros (sh : list nat) : tensor :=
  {| shape := sh; data := repeat F32.zero (numel sh) |}.

(** [np.ones_like(x)] *)
Definition ones_like (x : tensor) : tensor :=
  tf_map (fun _ => F32.one) x.

(** [tf.cast(x, dtype=tf.float32)] on a [float32] tensor. *)
Definition cast_float32 (x : tensor) : tensor := x.

(** A rank-0 tensor, and the value of a variable of rank 0. *)
Definition scalar (x : F32.t) : tensor := {| shape := []; data := [x] |}.

Definition item (dflt : F32.t) (x : tensor) : F32.t :=
  match data x with
  | [v] => v
  | _ => dflt
  end.

(* ================================================================= *)
(** ** Tensors on a gradient tape

    A tensor computed under [tf.GradientTape] is a function of the
    variables that the tape watches.  The body of the [with] block is
    evaluated on two copies of the variables at once: the copy that a
    gradient varies, and the copy that holds their current values.  A
    value of the tape is the pair of the two results; [tf.stop_gradient]
    replaces the first by the second, so that what it returns no longer
    depends on the copy being varied. *)

Record dual (A : Type) : Type := { live : A; frozen : A }.

Definition constant {A} (x : A) : dual A := {| live := x; frozen := x |}.

Definition stop_gradient {A} (x : dual A) : dual A :=
  {| live := frozen x; frozen := frozen x |}.

(** The two components are one: what holds of every value of the tape
    when the copy that gradients vary is at the current values. *)
Definition settled {A} (x : dual A) : Prop := live x = frozen x.

(** Reading an attribute of the agent under the tape. *)
Definition watch {S A} (sel : S -> A) (v c : S) : dual A :=
  {| live := sel v; frozen := sel c |}.

Definition d_map {A C} (f : A -> C) (x : dual A) : dual C :=
  {| live := f (live x); frozen := f (frozen x) |}.

Definition d_map2 {A A' C} (f : A -> A' -> C) (x : dual A) (y : dual A') : dual C :=
  {| live := f (live x) (live y); frozen := f (frozen x) (frozen y) |}.

(** [x (op) y] on two tensors. *)
Definition d_binop (f : F32.t -> F32.t -> F32.t) (x y : dual tensor)
  : result (dual tensor) :=
  l <- tf_binop f (live x) (live y) ;;
  z <- tf_binop f (frozen x) (frozen y) ;;
  Ok {| live := l; frozen := z |}.

(** [c (op) x] and [x (op) c] for a scalar [c] and a tensor [x]. *)
Definition d_scalar_l (f : F32.t -> F32.t -> F32.t) (c : dual F32.t) (x : dual tensor)
  : dual tensor :=
  d_map2 (fun c x => tf_map (f c) x) c x.

Definition d_scalar_r (f : F32.t -> F32.t -> F32.t) (x : dual tensor) (c : dual F32.t)
  : dual tensor :=
  d_map2 (fun x c => tf_map (fun e => f e c) x) x c.

(* ================================================================= *)
(** ** What the agent takes from outside the file

    - Keras layers ([Dense], [LayerNormalization]): a layer is called
      on a tensor and owns variables ([weights]) that can be assigned;
    - [GaussianActor] ([tf2rl.policies.tfp_gaussian_actor]): called on
      a batch of states, with the [test] flag and the state of the
      random generator from which it draws, it returns the actions,
      their log-probabilities and the next state of the generator;
    - [update_target_variables] ([tf2rl.misc.target_update_ops]): from
      the target variables, the source variables and [tau], the values
      the target variables are assigned;
    - the kernels [tf.exp], [tf.pow], [tf.minimum], the reductions,
      [GradientTape.gradient] (the gradient, at the current value of the
      variables, of a tensor of the tape seen as a function of these
      variables) and the Adam optimizer. *)

Class Backend : Type := {
  layer : Type;
  layer_call : layer -> tensor -> result tensor;
  layer_weights : layer -> list tensor;
  layer_assign : layer -> list tensor -> layer;

  GaussianActor : Type;
  rng : Type;
  actor_call : GaussianActor -> tensor -> bool -> rng -> result (tensor * tensor * rng);
  actor_trainable_variables : GaussianActor -> list tensor;
  actor_assign : GaussianActor -> list tensor -> GaussianActor;

  update_target_variables : list tensor -> list tensor -> F32.t -> list tensor;

  tf_exp : F32.t -> F32.t;
  tf_pow : F32.t -> F32.t -> F32.t;
  tf_minimum : F32.t -> F32.t -> F32.t;
  tf_reduce_mean : tensor -> F32.t;
  tf_reduce_min : tensor -> F32.t;
  tf_reduce_max : tensor -> F32.t;
  np_mean : tensor -> F32.t;

  tape_gradient : (list tensor -> result F32.t) -> list tensor -> list tensor;
  optimizer : Type;
  Adam : F32.t -> optimizer;
  apply_gradients : optimizer -> list (tensor * tensor) -> optimizer * list tensor
}.

(** The arguments of the constructor of the agent (those that the file
    uses; [discount] goes to the base class). *)
Module Args.
Record t : Type := {
  state_shape : list nat;
  action_dim : nat;
  name : string;
  lr : F32.t;
  lr_alpha : F32.t;
  tau : F32.t;
  alpha : F32.t;
  auto_alpha : bool;
  discount : F32.t
}.
End Args.

Section Agent.

Context {B : Backend}.

(* ================================================================= *)
(** ** [CriticQ] *)

Record CriticQ : Type := {
  base_layers : list layer;
  out_layer : layer
}.

(** [CriticQ.call] *)
Definition CriticQ_call (m : CriticQ) (states actions : tensor) : result tensor :=
  features <- concat_axis1 states actions ;;
  features <- fold_left (fun features cur_layer =>
                           features <- features ;; layer_call cur_layer features)
                        (base_layers m) (Ok features) ;;
  values <- layer_call (out_layer m) features ;;
  squeeze_axis1 values.

(** [m.weights] (and [m.trainable_variables]: every variable of these
    layers is trainable), in the order of the layers. *)
Definition CriticQ_weights (m : CriticQ) : list tensor :=
  flat_map layer_weights (base_layers m) ++ layer_weights (out_layer m).

(** Assignment of new values to the variables of the layers, by
    position; a layer receives as many values as it owns variables. *)
Fixpoint assign_layers (ls : list layer) (ws : list tensor) : list layer * list tensor :=
  match ls with
  | [] => ([], ws)
  | l :: ls' =>
      let n := length (layer_weights l) in
      let '(ls'', rest) := assign_layers ls' (skipn n ws) in
      (layer_assign l (firstn n ws) :: ls'', rest)
  end.

Definition CriticQ_assign (m : CriticQ) (ws : list tensor) : CriticQ :=
  let '(bl, rest) := assign_layers (base_layers m) ws in
  {| base_layers := bl; out_layer := layer_assign (out_layer m) rest |}.

(** Lines 21-24 of [CriticQ.__init__]: the two tensors of zeros on
    which the constructor calls the model, and that call. *)
Definition dummy_state (state_shape : list nat) : tensor :=
  zeros (1 :: state_shape).

Definition dummy_action (action_dim : nat) : tensor :=
  zeros [1; action_dim].

Definition CriticQ_dummy_call (m : CriticQ) (state_shape : list nat) (action_dim : nat)
  : result tensor :=
  CriticQ_call m (dummy_state state_shape) (dummy_action action_dim).

(* ================================================================= *)
(** ** The agent *)

(** The attributes of a [SAC] object.  Hyper-parameters that are Python
    floats ([tau], [discount], a fixed [alpha]) enter the arithmetic
    through their conversion to [float32] and are held here as that
    [float32] value.  [log_alpha], [target_alpha] and [alpha_optimizer]
    are set by the constructor only when [auto_alpha] holds;
    [vf_target] is read by [_compute_td_error_body]; [discount] and
    [policy_name] are set by the base class [OffPolicyAgent]. *)
Record SAC : Type := {
  actor : GaussianActor;
  actor_optimizer : optimizer;
  qf1 : CriticQ;
  qf2 : CriticQ;
  qf1_target : CriticQ;
  qf2_target : CriticQ;
  qf_optimizer : optimizer;
  tau : F32.t;
  auto_alpha : bool;
  log_alpha : option F32.t;
  alpha : F32.t;
  target_alpha : option Z;
  alpha_optimizer : option optimizer;
  state_ndim : nat;
  discount : F32.t;
  policy_name : string;
  vf_target : option (tensor -> result tensor)
}.

(** The networks that the constructors of [GaussianActor] and
    [CriticQ] return. *)
Record networks : Type := {
  new_actor : GaussianActor;
  new_qf1 : CriticQ;
  new_qf2 : CriticQ;
  new_qf1_target : CriticQ;
  new_qf2_target : CriticQ
}.

(** [SAC.__init__], with [_setup_actor] and [_setup_critic_q] in line.
    The two calls of [update_target_variables] in [_setup_critic_q] pass
    the weights of the live critic first, where [_train_body] passes
    those of the target critic: with [tau=1.] it is the live critic that
    is assigned the weights of the target critic. *)
Definition __init__ (a : Args.t) (n : networks) : SAC :=
  let qf1' := CriticQ_assign (new_qf1 n)
                (update_target_variables (CriticQ_weights (new_qf1 n))
                   (CriticQ_weights (new_qf1_target n)) F32.one) in
  let qf2' := CriticQ_assign (new_qf2 n)
                (update_target_variables (CriticQ_weights (new_qf2 n))
                   (CriticQ_weights (new_qf2_target n)) F32.one) in
  {| actor := new_actor n;
     actor_optimizer := Adam (Args.lr a);
     qf1 := qf1';
     qf2 := qf2';
     qf1_target := new_qf1_target n;
     qf2_target := new_qf2_target n;
     qf_optimizer := Adam (Args.lr a);
     tau := Args.tau a;
     auto_alpha := Args.auto_alpha a;
     log_alpha := if Args.auto_alpha a then Some F32.zero else None;
     alpha := if Args.auto_alpha a then tf_exp F32.zero else Args.alpha a;
     target_alpha := if Args.auto_alpha a
                     then Some (- Z.of_nat (Args.action_dim a))%Z else None;
     alpha_optimizer := if Args.auto_alpha a
                        then Some (Adam (Args.lr_alpha a)) else None;
     state_ndim := length (Args.state_shape a);
     discount := Args.discount a;
     policy_name := Args.name a;
     vf_target := None |}.

(** In-place updates of the variables of the agent. *)
Definition set_critics (s : SAC) (o : optimizer) (q1 q2 : CriticQ) : SAC :=
  {| actor := actor s; actor_optimizer := actor_optimizer s;
     qf1 := q1; qf2 := q2;
     qf1_target := qf1_target s; qf2_target := qf2_target s;
     qf_optimizer := o;
     tau := tau s; auto_alpha := auto_alpha s; log_alpha := log_alpha s;
     alpha := alpha s; target_alpha := target_alpha s;
     alpha_optimizer := alpha_optimizer s; state_ndim := state_ndim s;
     discount := discount s; policy_name := policy_name s;
     vf_target := vf_target s |}.

Definition set_qf1_target (s : SAC) (q : CriticQ) : SAC :=
  {| actor := actor s; actor_optimizer := actor_optimizer s;
     qf1 := qf1 s; qf2 := qf2 s;
     qf1_target := q; qf2_target := qf2_target s;
     qf_optimizer := qf_optimizer s;
     tau := tau s; auto_alpha := auto_alpha s; log_alpha := log_alpha s;
     alpha := alpha s; target_alpha := target_alpha s;
     alpha_optimizer := alpha_optimizer s; state_ndim := state_ndim s;
     discount := discount s; policy_name := policy_name s;
     vf_target := vf_target s |}.

Definition set_qf2_target (s : SAC) (q : CriticQ) : SAC :=
  {| actor := actor s; actor_optimizer := actor_optimizer s;
     qf1 := qf1 s; qf2 := qf2 s;
     qf1_target := qf1_target s; qf2_target := q;
     qf_optimizer := qf_optimizer s;
     tau := tau s; auto_alpha := auto_alpha s; log_alpha := log_alpha s;
     alpha := alpha s; target_alpha := target_alpha s;
     alpha_optimizer := alpha_optimizer s; state_ndim := state_ndim s;
     discount := discount s; policy_name := policy_name s;
     vf_target := vf_target s |}.

Definition set_actor (s : SAC) (o : optimizer) (a : GaussianActor) : SAC :=
  {| actor := a; actor_optimizer := o;
     qf1 := qf1 s; qf2 := qf2 s;
     qf1_target := qf1_target s; qf2_target := qf2_target s;
     qf_optimizer := qf_optimizer s;
     tau := tau s; auto_alpha := auto_alpha s; log_alpha := log_alpha s;
     alpha := alpha s; target_alpha := target_alpha s;
     alpha_optimizer := alpha_optimizer s; state_ndim := state_ndim s;
     discount := discount s; policy_name := policy_name s;
     vf_target := vf_target s |}.

Definition set_log_alpha (s : SAC) (o : optimizer) (la : F32.t) : SAC :=
  {| actor := actor s; actor_optimizer := actor_optimizer s;
     qf1 := qf1 s; qf2 := qf2 s;
     qf1_target := qf1_target s; qf2_target := qf2_target s;
     qf_optimizer := qf_optimizer s;
     tau := tau s; auto_alpha := auto_alpha s; log_alpha := Some la;
     alpha := alpha s; target_alpha := target_alpha s;
     alpha_optimizer := Some o; state_ndim := state_ndim s;
     discount := discount s; policy_name := policy_name s;
     vf_target := vf_target s |}.

Definition set_alpha (s : SAC) (x : F32.t) : SAC :=
  {| actor := actor s; actor_optimizer := actor_optimizer s;
     qf1 := qf1 s; qf2 := qf2 s;
     qf1_target := qf1_target s; qf2_target := qf2_target s;
     qf_optimizer := qf_optimizer s;
     tau := tau s; auto_alpha := auto_alpha s; log_alpha := log_alpha s;
     alpha := x; target_alpha := target_alpha s;
     alpha_optimizer := alpha_optimizer s; state_ndim := state_ndim s;
     discount := discount s; policy_name := policy_name s;
     vf_target := vf_target s |}.

(* ================================================================= *)
(** ** The training step *)

(** A network called under the tape. *)
Definition tape_critic (sel : SAC -> CriticQ) (v c : SAC) (states actions : dual tensor)
  : result (dual tensor) :=
  l <- CriticQ_call (sel v) (live states) (live actions) ;;
  z <- CriticQ_call (sel c) (frozen states) (frozen actions) ;;
  Ok {| live := l; frozen := z |}.

(** The two evaluations of one call of the actor draw the same noise. *)
Definition tape_actor (v c : SAC) (states : dual tensor) (r : rng)
  : result (dual tensor * dual tensor * rng) :=
  '(al, pl, _) <- actor_call (actor v) (live states) false r ;;
  '(az, pz, r') <- actor_call (actor c) (frozen states) false r ;;
  Ok ({| live := al; frozen := az |}, {| live := pl; frozen := pz |}, r').

(** The local variables of the [with tf.GradientTape] block of
    [_train_body]. *)
Record Tape : Type := {
  current_q1 : dual tensor;
  current_q2 : dual tensor;
  sample_next_actions : dual tensor;
  next_logp : dual tensor;
  next_q1_target : dual tensor;
  next_q2_target : dual tensor;
  next_q_min_target : dual tensor;
  soft_next_q : dual tensor;
  target_q : dual tensor;
  td_loss_q1 : dual F32.t;
  td_loss_q2 : dual F32.t;
  td_loss_q : dual F32.t;
  sample_actions : dual tensor;
  logp : dual tensor;
  current_q1_policy : dual tensor;
  current_q2_policy : dual tensor;
  current_min_q_policy : dual tensor;
  policy_loss : dual F32.t;
  alpha_loss : option (dual F32.t)
}.

(** The [with tf.GradientTape(persistent=True) as tape] block, on the
    copy [v] of the agent that gradients vary and the copy [c] of its
    current values; [r] is the state of the random generator and
    [rewards], [not_dones] are the two tensors computed before the
    block. *)
Definition gradient_tape (v c : SAC) (r : rng)
    (states actions next_states rewards not_dones : tensor) : result (Tape * rng) :=
  (* Compute loss of critic Q *)
  current_q1 <- tape_critic qf1 v c (constant states) (constant actions) ;;
  current_q2 <- tape_critic qf2 v c (constant states) (constant actions) ;;

  '(sample_next_actions, next_logp, r) <- tape_actor v c (constant next_states) r ;;
  next_q1_target <- tape_critic qf1_target v c (constant next_states) sample_next_actions ;;
  next_q2_target <- tape_critic qf2_target v c (constant next_states) sample_next_actions ;;
  next_q_min_target <- d_binop tf_minimum next_q1_target next_q2_target ;;
  soft_next_q <- d_binop F32.sub next_q_min_target
                   (d_scalar_l F32.mul (watch alpha v c) next_logp) ;;

  bootstrap <- d_binop F32.mul
                 (d_scalar_r F32.mul (constant not_dones) (watch discount v c))
                 soft_next_q ;;
  target_q <- d_binop F32.add (constant rewards) bootstrap ;;
  let target_q := stop_gradient target_q in

  err1 <- d_binop F32.sub target_q current_q1 ;;
  let td_loss_q1 :=
    d_map tf_reduce_mean (d_scalar_r tf_pow err1 (constant (F32.of_Z 2))) in
  err2 <- d_binop F32.sub target_q current_q2 ;;
  let td_loss_q2 :=
    d_map tf_reduce_mean (d_scalar_r tf_pow err2 (constant (F32.of_Z 2))) in
  let td_loss_q := d_map2 F32.add td_loss_q1 td_loss_q2 in

  (* Resample actions to update V *)
  '(sample_actions, logp, r) <- tape_actor v c (constant states) r ;;
  current_q1_policy <- tape_critic qf1 v c (constant states) sample_actions ;;
  current_q2_policy <- tape_critic qf2 v c (constant states) sample_actions ;;
  current_min_q_policy <- d_binop tf_minimum current_q1_policy current_q2_policy ;;

  (* Compute loss of policy *)
  gap <- d_binop F32.sub (d_scalar_l F32.mul (watch alpha v c) logp)
           current_min_q_policy ;;
  let policy_loss := d_map tf_reduce_mean gap in

  (* Compute loss of temperature parameter for entropy *)
  alpha_loss <-
    (if auto_alpha v then
       la_v <- getattr "log_alpha" (log_alpha v) ;;
       la_c <- getattr "log_alpha" (log_alpha c) ;;
       ta <- getattr "target_alpha" (target_alpha v) ;;
       Ok (Some (d_map F32.neg
                   (d_map tf_reduce_mean
                      (d_scalar_l F32.mul {| live := la_v; frozen := la_c |}
                         (stop_gradient
                            (d_scalar_r F32.add logp (constant (F32.of_Z ta))))))))
     else Ok None) ;;

  Ok ({| current_q1 := current_q1; current_q2 := current_q2;
        sample_next_actions := sample_next_actions; next_logp := next_logp;
        next_q1_target := next_q1_target; next_q2_target := next_q2_target;
        next_q_min_target := next_q_min_target; soft_next_q := soft_next_q;
        target_q := target_q;
        td_loss_q1 := td_loss_q1; td_loss_q2 := td_loss_q2; td_loss_q := td_loss_q;
        sample_actions := sample_actions; logp := logp;
        current_q1_policy := current_q1_policy;
        current_q2_policy := current_q2_policy;
        current_min_q_policy := current_min_q_policy;
        policy_loss := policy_loss; alpha_loss := alpha_loss |}, r).

(** The value that a tensor of the tape has, at the current values of
    the variables. *)
Definition value {A} (x : dual A) : A := frozen x.

(** The four updates that follow the [with] block in [_train_body].
    [block v] is the block evaluated with [v] for the variables that a
    gradient varies: [tape.gradient(loss, variables)] is the gradient of
    [fun ws => loss] of [block] at the variables assigned [ws].  [rec]
    is the agent as it was when the tape recorded the block. *)

(** Lines 170-172: the gradient step on the two critics. *)
Definition critic_step (self : SAC) (block : SAC -> result (Tape * rng)) : SAC :=
  let n1 := length (CriticQ_weights (qf1 self)) in
  let trainable_var := CriticQ_weights (qf1 self) ++ CriticQ_weights (qf2 self) in
  let q_grad :=
    tape_gradient
      (fun ws =>
         '(t, _) <- block (set_critics self (qf_optimizer self)
                             (CriticQ_assign (qf1 self) (firstn n1 ws))
                             (CriticQ_assign (qf2 self) (skipn n1 ws))) ;;
         Ok (live (td_loss_q t)))
      trainable_var in
  let '(opt, new_var) :=
    apply_gradients (qf_optimizer self) (combine q_grad trainable_var) in
  set_critics self opt
    (CriticQ_assign (qf1 self) (firstn n1 new_var))
    (CriticQ_assign (qf2 self) (skipn n1 new_var)).

(** Lines 174-175: the soft update of the two target critics. *)
Definition target_step (self : SAC) : SAC :=
  let self := set_qf1_target self
                (CriticQ_assign (qf1_target self)
                   (update_target_variables (CriticQ_weights (qf1_target self))
                      (CriticQ_weights (qf1 self)) (tau self))) in
  set_qf2_target self
    (CriticQ_assign (qf2_target self)
       (update_target_variables (CriticQ_weights (qf2_target self))
          (CriticQ_weights (qf2 self)) (tau self))).

(** Lines 177-178: the gradient step on the actor. *)
Definition actor_step (rec self : SAC) (block : SAC -> result (Tape * rng)) : SAC :=
  let actor_var := actor_trainable_variables (actor self) in
  let actor_grad :=
    tape_gradient
      (fun ws =>
         '(t, _) <- block (set_actor rec (actor_optimizer rec)
                             (actor_assign (actor rec) ws)) ;;
         Ok (live (policy_loss t)))
      actor_var in
  let '(opt, new_var) :=
    apply_gradients (actor_optimizer self) (combine actor_grad actor_var) in
  set_actor self opt (actor_assign (actor self) new_var).

(** Lines 180-183: the gradient step on [log_alpha] and the assignment
    of [alpha]. *)
Definition alpha_step (rec self : SAC) (tape : Tape)
    (block : SAC -> result (Tape * rng)) : result SAC :=
  if auto_alpha self then
    _ <- getlocal "alpha_loss" (alpha_loss tape) ;;
    la <- getattr "log_alpha" (log_alpha self) ;;
    opt <- getattr "alpha_optimizer" (alpha_optimizer self) ;;
    let alpha_var := [scalar la] in
    let alpha_grad :=
      tape_gradient
        (fun ws =>
           '(t, _) <- block (set_log_alpha rec opt
                               (match ws with w :: _ => item la w | [] => la end)) ;;
           l <- getlocal "alpha_loss" (alpha_loss t) ;;
           Ok (live l))
        alpha_var in
    let '(opt, new_var) := apply_gradients opt (combine alpha_grad alpha_var) in
    let la' := match new_var with w :: _ => item la w | [] => la end in
    let self := set_log_alpha self opt la' in
    Ok (set_alpha self (tf_exp la'))
  else Ok self.

(** Lines 185-186: what [_train_body] returns. *)
Definition returned (tape : Tape)
  : tensor * F32.t * tensor * F32.t * F32.t * F32.t * F32.t :=
  (value (target_q tape), value (policy_loss tape), value (current_q1 tape),
   value (td_loss_q1 tape),
   tf_reduce_min (value (logp tape)), tf_reduce_max (value (logp tape)),
   tf_reduce_mean (value (logp tape))).

(** Lines 139-186 of [_train_body]: what it does with the squeezed
    [rewards] and [dones]. *)
Definition train_steps (self : SAC) (r : rng)
    (states actions next_states rewards dones : tensor)
  : result ((tensor * F32.t * tensor * F32.t * F32.t * F32.t * F32.t) * SAC * rng) :=
  let not_dones := tf_map (fun d => F32.sub F32.one d) (cast_float32 dones) in

  let block v := gradient_tape v self r states actions next_states rewards not_dones in
  '(tape, r') <- block self ;;

  let self1 := critic_step self block in
  let self2 := target_step self1 in
  let self3 := actor_step self self2 block in
  self4 <- alpha_step self self3 tape block ;;

  Ok (returned tape, self4, r').

(** [_train_body].  It is a [tf.function]: its errors are raised
    while its body is traced, before any variable is assigned, and an
    error leaves the agent as it was. *)
Definition _train_body (self : SAC) (r : rng)
    (states actions next_states rewards dones weights : tensor)
  : result ((tensor * F32.t * tensor * F32.t * F32.t * F32.t * F32.t) * SAC * rng) :=
  _ <- assert (length (shape dones) =? 2) ;;
  _ <- assert (length (shape rewards) =? 2) ;;
  rewards <- squeeze_axis1 rewards ;;
  dones <- squeeze_axis1 dones ;;
  train_steps self r states actions next_states rewards dones.

(** [tf.summary.scalar]: the scalars that a call writes, in order. *)
Definition summary : Type := list (string * F32.t).

(** [train] *)
Definition train (self : SAC) (r : rng)
    (states actions next_states rewards dones : tensor) (weights : option tensor)
  : result (tensor * summary * SAC * rng) :=
  let weights := match weights with
                 | None => ones_like rewards
                 | Some w => w
                 end in
  '((td_errors, actor_loss, qf1_, qf1_loss, logp_min, logp_max, logp_mean), self, r) <-
    _train_body self r states actions next_states rewards dones weights ;;
  let log1 :=
    [ (policy_name self ++ "/actor_loss", actor_loss);
      (policy_name self ++ "/critic_Q1_value", np_mean qf1_);
      (policy_name self ++ "/critic_Q1_loss", qf1_loss);
      (policy_name self ++ "/logp_min", logp_min);
      (policy_name self ++ "/logp_max", logp_max);
      (policy_name self ++ "/logp_mean", logp_mean) ]%string in
  log2 <-
    (if auto_alpha self then
       la <- getattr "log_alpha" (log_alpha self) ;;
       ta <- getattr "target_alpha" (target_alpha self) ;;
       Ok [ (policy_name self ++ "/log_ent", la);
            (policy_name self ++ "/logp_mean+target", F32.add logp_mean (F32.of_Z ta)) ]%string
     else Ok []) ;;
  let log3 := [ (policy_name self ++ "/ent", alpha self) ]%string in
  Ok (td_errors, log1 ++ log2 ++ log3, self, r).

(* ================================================================= *)
(** ** Action selection *)

(** [_get_action_body] *)
Definition _get_action_body (self : SAC) (state : tensor) (test : bool) (r : rng)
  : result (tensor * tensor * rng) :=
  actor_call (actor self) state test r.

(** [get_action]; the state is a [float32] numpy array. *)
Definition get_action (self : SAC) (r : rng) (state : tensor) (test : bool)
  : result (tensor * tensor * rng) :=
  let is_single_state := length (shape state) =? state_ndim self in
  let state := if is_single_state then expand_dims0 state else state in
  '(action, logps, r) <- _get_action_body self state test r ;;
  if is_single_state then
    a <- index0 action ;;
    l <- index0 logps ;;
    Ok (a, l, r)
  else Ok (action, logps, r).

(** [_get_logp_body] and [get_logp] *)
Definition _get_logp_body (self : SAC) (state : tensor) (r : rng)
  : result (tensor * rng) :=
  '(_, logps, r) <- actor_call (actor self) state false r ;;
  Ok (logps, r).

Definition get_logp (self : SAC) (r : rng) (state : tensor) : result (tensor * rng) :=
  let is_single_state := length (shape state) =? state_ndim self in
  let state := if is_single_state then expand_dims0 state else state in
  '(logp, r) <- _get_logp_body self state r ;;
  if is_single_state then
    l <- index0 logp ;;
    Ok (l, r)
  else Ok (logp, r).

(* ================================================================= *)
(** ** The TD-error query *)

(** [_compute_td_error_body]; no tape is recording, [tf.stop_gradient]
    returns its argument. *)
Definition _compute_td_error_body (self : SAC)
    (states actions next_states rewards dones : tensor) : result tensor :=
  let not_dones := tf_map (fun d => F32.sub F32.one d) (cast_float32 dones) in

  (* Compute TD errors for Q-value func *)
  current_q1 <- CriticQ_call (qf1 self) states actions ;;
  vf_target <- getattr "vf_target" (vf_target self) ;;
  vf_next_target <- vf_target next_states ;;

  bootstrap <- tf_binop F32.mul
                 (tf_map (fun e => F32.mul e (discount self)) not_dones)
                 vf_next_target ;;
  target_q <- tf_binop F32.add rewards bootstrap ;;

  td_errors_q1 <- tf_binop F32.sub target_q current_q1 ;;
  Ok td_errors_q1.

(** [compute_td_error]; [is_tf_tensor] tells whether [actions] is a
    [tf.Tensor]. *)
Definition compute_td_error (self : SAC) (is_tf_tensor : bool)
    (states actions next_states rewards dones : tensor) : result tensor :=
  '(rewards, dones) <-
    (if is_tf_tensor then
       rewards <- expand_dims1 rewards ;;
       dones <- expand_dims1 dones ;;
       Ok (rewards, dones)
     else Ok (rewards, dones)) ;;
  td_errors <- _compute_td_error_body self states actions next_states rewards dones ;;
  Ok td_errors.

End Agent.

(* ================================================================= *)
(** ** The quantities of the specification

    The formulas of the training step as the specification words them,
    on tensors of one shape ([vzip] is the element-wise operation
    without broadcasting). *)

Definition vzip (f : F32.t -> F32.t -> F32.t) (x y : tensor) : tensor :=
  {| shape := shape x; data := zip_with f (data x) (data y) |}.

(** A column of shape [[n; 1]] seen as a vector of shape [[n]]. *)
Definition squeezed (n : nat) (x : tensor) : tensor :=
  {| shape := [n]; data := data x |}.

(** A tensor holds as many data as its shape says. *)
Definition well_formed (x : tensor) : Prop :=
  length (data x) = numel (shape x).

Section Specification.

Context {B : Backend}.

(** [not_dones = 1 - dones] *)
Definition not_dones_of (dones : tensor) : tensor :=
  tf_map (fun d => F32.sub F32.one d) dones.

(** [min(Q1_target, Q2_target) - alpha * next_logp] *)
Definition soft_next_value (alpha : F32.t) (q1t q2t next_logp : tensor) : tensor :=
  vzip F32.sub (vzip tf_minimum q1t q2t) (tf_map (F32.mul alpha) next_logp).

(** [rewards + not_dones * discount * soft_next_value] *)
Definition regression_target (discount : F32.t) (rewards not_dones soft : tensor)
  : tensor :=
  vzip F32.add rewards
    (vzip F32.mul (tf_map (fun e => F32.mul e discount) not_dones) soft).

(** The mean squared error of [q] against [target]. *)
Definition mean_squared_error (q target : tensor) : F32.t :=
  tf_reduce_mean (tf_map (fun e => tf_pow e (F32.of_Z 2)) (vzip F32.sub target q)).

(** [mean(alpha * logp - min(Q1, Q2))] *)
Definition actor_objective (alpha : F32.t) (logp q1 q2 : tensor) : F32.t :=
  tf_reduce_mean (vzip F32.sub (tf_map (F32.mul alpha) logp) (vzip tf_minimum q1 q2)).

(** [-mean(log_alpha * (logp + target_alpha))] *)
Definition temperature_loss (log_alpha : F32.t) (target_alpha : Z) (logp : tensor)
  : F32.t :=
  F32.neg (tf_reduce_mean
             (tf_map (F32.mul log_alpha)
                (tf_map (fun e => F32.add e (F32.of_Z target_alpha)) logp))).

(** The eight evaluations of the networks in a training step on a batch
    of [n] transitions: what each returns, one value for each
    transition. *)
Record evaluation : Type := {
  e_q1 : tensor;           (* Q1(states, actions) *)
  e_q2 : tensor;           (* Q2(states, actions) *)
  e_next_actions : tensor; (* the sample of the actor on next_states ... *)
  e_next_logp : tensor;    (* ... and its log-probability *)
  e_rng1 : rng;
  e_q1_target : tensor;    (* Q1_target(next_states, next_actions) *)
  e_q2_target : tensor;    (* Q2_target(next_states, next_actions) *)
  e_actions : tensor;      (* the sample of the actor on states ... *)
  e_logp : tensor;         (* ... and its log-probability *)
  e_rng2 : rng;
  e_q1_policy : tensor;    (* Q1(states, actions') *)
  e_q2_policy : tensor     (* Q2(states, actions') *)
}.

Definition evaluates (s : SAC) (r : rng) (states actions next_states : tensor)
    (n : nat) (e : evaluation) : Prop :=
  CriticQ_call (qf1 s) states actions = Ok (e_q1 e) /\ shape (e_q1 e) = [n] /\
  CriticQ_call (qf2 s) states actions = Ok (e_q2 e) /\ shape (e_q2 e) = [n] /\
  actor_call (actor s) next_states false r
    = Ok (e_next_actions e, e_next_logp e, e_rng1 e) /\
  shape (e_next_logp e) = [n] /\
  CriticQ_call (qf1_target s) next_states (e_next_actions e) = Ok (e_q1_target e) /\
  shape (e_q1_target e) = [n] /\
  CriticQ_call (qf2_target s) next_states (e_next_actions e) = Ok (e_q2_target e) /\
  shape (e_q2_target e) = [n] /\
  actor_call (actor s) states false (e_rng1 e)
    = Ok (e_actions e, e_logp e, e_rng2 e) /\
  shape (e_logp e) = [n] /\
  CriticQ_call (qf1 s) states (e_actions e) = Ok (e_q1_policy e) /\
  shape (e_q1_policy e) = [n] /\
  CriticQ_call (qf2 s) states (e_actions e) = Ok (e_q2_policy e) /\
  shape (e_q2_policy e) = [n].

(** The tape that these evaluations give: every tensor of the block
    from the formulas above. *)
Definition tape_of (s : SAC) (e : evaluation) (rewards not_dones : tensor) : Tape :=
  let soft := soft_next_value (alpha s) (e_q1_target e) (e_q2_target e) (e_next_logp e) in
  let target := regression_target (discount s) rewards not_dones soft in
  let l1 := mean_squared_error (e_q1 e) target in
  let l2 := mean_squared_error (e_q2 e) target in
  {| current_q1 := constant (e_q1 e);
     current_q2 := constant (e_q2 e);
     sample_next_actions := constant (e_next_actions e);
     next_logp := constant (e_next_logp e);
     next_q1_target := constant (e_q1_target e);
     next_q2_target := constant (e_q2_target e);
     next_q_min_target := constant (vzip tf_minimum (e_q1_target e) (e_q2_target e));
     soft_next_q := constant soft;
     target_q := constant target;
     td_loss_q1 := constant l1;
     td_loss_q2 := constant l2;
     td_loss_q := constant (F32.add l1 l2);
     sample_actions := constant (e_actions e);
     logp := constant (e_logp e);
     current_q1_policy := constant (e_q1_policy e);
     current_q2_policy := constant (e_q2_policy e);
     current_min_q_policy :=
       constant (vzip tf_minimum (e_q1_policy e) (e_q2_policy e));
     policy_loss :=
       constant (actor_objective (alpha s) (e_logp e) (e_q1_policy e) (e_q2_policy e));
     alpha_loss :=
       if auto_alpha s then
         match log_alpha s, target_alpha s with
         | Some la, Some ta => Some (constant (temperature_loss la ta (e_logp e)))
         | _, _ => None
         end
       else None |}.

(** The attributes that the constructor sets when [auto_alpha] holds
    are there. *)
Definition tuned (s : SAC) : Prop :=
  auto_alpha s = true ->
  (exists la, log_alpha s = Some la) /\
  (exists ta, target_alpha s = Some ta) /\
  (exists o, alpha_optimizer s = Some o).

(** The agents that the constructor and then training steps produce. *)
Inductive reachable (a : Args.t) (n : networks) : SAC -> Prop :=
| reach_init : reachable a n (__init__ a n)
| reach_train s r states actions next_states rewards dones weights td log s' r' :
    reachable a n s ->
    train s r states actions next_states rewards dones weights = Ok (td, log, s', r') ->
    reachable a n s'.

(** A variable that is assigned holds what it was assigned. *)
Definition assignment_is_read_back : Prop :=
  forall (l : layer) (ws : list tensor),
    length ws = length (layer_weights l) ->
    layer_weights (layer_assign l ws) = ws.

End Specification.

(* ================================================================= *)
(** ** A small concrete backend

    An agent without hidden layers ([critic_units=()]): each critic is
    its output layer [Dense(1)].  The actor, the differentiation (by
    finite differences) and the optimizer (a plain gradient step) are
    stand-ins on which the definitions above can be run. *)

Module Toy.

Definition div : F32.t -> F32.t -> F32.t := SFdiv F32.prec F32.emax.
Definition ltb : F32.t -> F32.t -> bool := SFltb.
Definition eqb : F32.t -> F32.t -> bool := SFeqb.

Definition sum (l : list F32.t) : F32.t := fold_left F32.add l F32.zero.

Definition minimum (x y : F32.t) : F32.t := if ltb x y then x else y.
Definition maximum (x y : F32.t) : F32.t := if ltb y x then x else y.

Definition reduce_mean (x : tensor) : F32.t :=
  div (sum (data x)) (F32.of_Z (Z.of_nat (length (data x)))).
Definition reduce_min (x : tensor) : F32.t :=
  fold_left minimum (data x) F32.inf.
Definition reduce_max (x : tensor) : F32.t :=
  fold_left maximum (data x) (F32.neg F32.inf).

(** [1 + x + x^2/2 + x^3/6 + x^4/24] *)
Definition exp (x : F32.t) : F32.t :=
  let x2 := F32.mul x x in
  let x3 := F32.mul x2 x in
  let x4 := F32.mul x3 x in
  F32.add (F32.add (F32.add (F32.add F32.one x) (div x2 (F32.of_Z 2)))
             (div x3 (F32.of_Z 6))) (div x4 (F32.of_Z 24)).

(** Powers 1 and 2 only. *)
Definition pow (x y : F32.t) : F32.t :=
  if eqb y (F32.of_Z 2) then F32.mul x x
  else if eqb y F32.one then x else F32.nan.

(** A [Dense] layer with a linear activation: kernel of shape
    [[n; units]], bias of shape [[units]]. *)
Record dense : Type := { kernel : tensor; bias : tensor }.

Definition column (units j : nat) (k : list F32.t) : list F32.t :=
  map (fun i => nth (i * units + j) k F32.nan) (seq 0 (length k / units)).

Definition dot (x w : list F32.t) : F32.t := sum (zip_with F32.mul x w).

Definition dense_call (l : dense) (x : tensor) : result tensor :=
  match shape x, shape (kernel l) with
  | [b; n], [n'; units] =>
      if n =? n'
      then Ok {| shape := [b; units];
                 data := flat_map
                           (fun row =>
                              map (fun j =>
                                     F32.add (dot row (column units j (data (kernel l))))
                                       (nth j (data (bias l)) F32.nan))
                                  (seq 0 units))
                           (chunks b n (data x)) |}
      else Raise LayerError
  | _, _ => Raise LayerError
  end.

Definition dense_weights (l : dense) : list tensor := [kernel l; bias l].

Definition dense_assign (l : dense) (ws : list tensor) : dense :=
  match ws with
  | k :: b :: _ => {| kernel := k; bias := b |}
  | [k] => {| kernel := k; bias := bias l |}
  | [] => l
  end.

(** A stand-in for the Gaussian actor: the action is a mean [mu] plus
    a noise that is the state of the generator (no noise under
    [test]); the log-probability is the opposite of the noise. *)
Record gauss : Type := { mu : tensor }.

Definition gauss_call (a : gauss) (states : tensor) (test : bool) (r : Z)
  : result (tensor * tensor * Z) :=
  match shape states with
  | b :: _ =>
      let eps := if test then F32.zero else F32.of_Z r in
      let act := map (fun m => F32.add m eps) (data (mu a)) in
      Ok ({| shape := b :: shape (mu a); data := concat (repeat act b) |},
          {| shape := [b]; data := repeat (F32.neg eps) b |},
          if test then r else (r + 1)%Z)
  | [] => Raise LayerError
  end.

Definition gauss_assign (a : gauss) (ws : list tensor) : gauss :=
  match ws with
  | m :: _ => {| mu := m |}
  | [] => a
  end.

(** Modelled from the spec: [update_target_variables], of
    [tf2rl.misc.target_update_ops], is not among the sources; for every
    pair of tensors it sets
    [target <- tau * source + (1 - tau) * target]. *)
Definition polyak (target source : list tensor) (tau : F32.t) : list tensor :=
  zip_with (fun t s =>
              {| shape := shape t;
                 data := zip_with (fun t s =>
                                     F32.add (F32.mul tau s)
                                       (F32.mul (F32.sub F32.one tau) t))
                           (data t) (data s) |})
    target source.

(** Differentiation by a forward difference of step [2^-7]. *)
Definition step : F32.t := S754_finite false 8388608 (-30).

Fixpoint bump {A} (f : A -> A) (i : nat) (l : list A) : list A :=
  match l, i with
  | [], _ => []
  | x :: l', O => f x :: l'
  | x :: l', S i' => x :: bump f i' l'
  end.

Definition bump_var (ws : list tensor) (i j : nat) : list tensor :=
  bump (fun w => {| shape := shape w;
                    data := bump (fun e => F32.add e step) j (data w) |}) i ws.

Definition gradient (f : list tensor -> result F32.t) (ws : list tensor)
  : list tensor :=
  map (fun i =>
         let w := nth i ws (scalar F32.zero) in
         {| shape := shape w;
            data := map (fun j =>
                           match f (bump_var ws i j), f ws with
                           | Ok y1, Ok y0 => div (F32.sub y1 y0) step
                           | _, _ => F32.zero
                           end)
                      (seq 0 (length (data w))) |})
      (seq 0 (length ws)).

(** A plain gradient step of rate [lr]; the optimizer counts its
    steps. *)
Record sgd : Type := { rate : F32.t; iterations : nat }.

Definition sgd_apply (o : sgd) (gv : list (tensor * tensor)) : sgd * list tensor :=
  ({| rate := rate o; iterations := S (iterations o) |},
   map (fun '(g, w) =>
          {| shape := shape w;
             data := zip_with (fun w g => F32.sub w (F32.mul (rate o) g))
                       (data w) (data g) |})
       gv).

#[export] Instance backend : Backend := {|
  layer := dense;
  layer_call := dense_call;
  layer_weights := dense_weights;
  layer_assign := dense_assign;
  GaussianActor := gauss;
  rng := Z;
  actor_call := gauss_call;
  actor_trainable_variables := fun a => [mu a];
  actor_assign := gauss_assign;
  update_target_variables := polyak;
  tf_exp := exp;
  tf_pow := pow;
  tf_minimum := minimum;
  tf_reduce_mean := reduce_mean;
  tf_reduce_min := reduce_min;
  tf_reduce_max := reduce_max;
  np_mean := reduce_mean;
  tape_gradient := gradient;
  optimizer := sgd;
  Adam := fun lr => {| rate := lr; iterations := 0 |};
  apply_gradients := sgd_apply
|}.

End Toy.

(** *** An agent on this backend

    [state_shape=(1,)], [action_dim=1], [critic_units=()]; a batch of
    two transitions, the second of which is terminal. *)

Module Scenario.
Import Toy.

Definition num (z : Z) : F32.t := F32.of_Z z.
Definition ratio (a b : Z) : F32.t := div (num a) (num b).

Definition vec (l : list Z) : tensor :=
  {| shape := [length l]; data := map num l |}.
Definition column (l : list Z) : tensor :=
  {| shape := [length l; 1]; data := map num l |}.

Definition critic (w1 w2 b : Z) : CriticQ :=
  {| base_layers := [];
     out_layer := {| kernel := {| shape := [2; 1]; data := [num w1; num w2] |};
                     bias := vec [b] |} |}.

Definition nets : networks :=
  {| new_actor := {| mu := vec [0%Z] |};
     new_qf1 := critic 1 2 0;
     new_qf2 := critic 2 1 1;
     new_qf1_target := critic 1 1 0;
     new_qf2_target := critic 1 1 1 |}.

Definition args (auto : bool) : Args.t :=
  {| Args.state_shape := [1];
     Args.action_dim := 1;
     Args.name := "SAC";
     Args.lr := ratio 1 100;
     Args.lr_alpha := ratio 1 100;
     Args.tau := ratio 1 200;
     Args.alpha := ratio 1 5;
     Args.auto_alpha := auto;
     Args.discount := ratio 99 100 |}.

Definition agent (auto : bool) : SAC := __init__ (args auto) nets.

Definition seed : rng := 1%Z.
Definition states : tensor := column [3; 4]%Z.
Definition actions : tensor := column [1; 1]%Z.
Definition next_states : tensor := column [5; 6]%Z.
Definition rewards : tensor := column [1; 0]%Z.
Definition dones : tensor := column [0; 1]%Z.

Definition unwrap {A} (d : A) (m : result A) : A :=
  match m with
  | Ok a => a
  | Raise _ => d
  end.

Definition is_ok {A} (m : result A) : bool :=
  match m with
  | Ok _ => true
  | Raise _ => false
  end.

Definition error_of {A} (m : result A) : option exn :=
  match m with
  | Ok _ => None
  | Raise e => Some e
  end.

Definition nothing : tensor := {| shape := []; data := [] |}.

(** What the networks of an agent return on this batch. *)
Definition evaluation_of (s : SAC) (next_states : tensor) : evaluation :=
  let '(na, nlp, r1) :=
    unwrap (nothing, nothing, 0%Z) (actor_call (actor s) next_states false seed) in
  let '(a, lp, r2) :=
    unwrap (nothing, nothing, 0%Z) (actor_call (actor s) states false r1) in
  {| e_q1 := unwrap nothing (CriticQ_call (qf1 s) states actions);
     e_q2 := unwrap nothing (CriticQ_call (qf2 s) states actions);
     e_next_actions := na;
     e_next_logp := nlp;
     e_rng1 := r1;
     e_q1_target := unwrap nothing (CriticQ_call (qf1_target s) next_states na);
     e_q2_target := unwrap nothing (CriticQ_call (qf2_target s) next_states na);
     e_actions := a;
     e_logp := lp;
     e_rng2 := r2;
     e_q1_policy := unwrap nothing (CriticQ_call (qf1 s) states a);
     e_q2_policy := unwrap nothing (CriticQ_call (qf2 s) states a) |}.

(** A batch in which both transitions are terminal and the next
    states are the largest finite [float32], about [3.4e38]: the target
    critics, of kernel [(1.25, 1)], overflow on them. *)
Definition huge : F32.t := S754_finite false 16777215 104.
Definition far_states : tensor := {| shape := [2; 1]; data := [huge; huge] |}.
Definition all_done : tensor := column [1; 1]%Z.

Definition steep_critic : CriticQ :=
  {| base_layers := [];
     out_layer := {| kernel := {| shape := [2; 1]; data := [ratio 5 4; num 1] |};
                     bias := vec [0%Z] |} |}.

Definition steep : networks :=
  {| new_actor := {| mu := vec [0%Z] |};
     new_qf1 := steep_critic;
     new_qf2 := steep_critic;
     new_qf1_target := steep_critic;
     new_qf2_target := steep_critic |}.

Definition steep_agent : SAC := __init__ (args false) steep.

(** The agent with another mean of the actor. *)
Definition shifted : SAC :=
  set_actor (agent false) (actor_optimizer (agent false)) {| mu := vec [1%Z] |}.

(** Rewards of shape [(2, 3)]. *)
Definition wide_rewards : tensor :=
  {| shape := [2; 3]; data := map num [1; 0; 0; 1; 0; 0]%Z |}.

(** A training step on the first batch. *)
Definition trained (auto : bool) : tensor * summary * SAC * rng :=
  unwrap (nothing, [], agent auto, 0%Z)
    (train (agent auto) seed states actions next_states rewards dones None).

(** The first component of what [_train_body] returns. *)
Definition target_returned
    (m : result ((tensor * F32.t * tensor * F32.t * F32.t * F32.t * F32.t)
                 * SAC * rng)) : option tensor :=
  match m with
  | Ok ((t, _, _, _, _, _, _), _, _) => Some t
  | Raise _ => None
  end.

End Scenario.

(* ================================================================= *)
(** ** Properties *)

Unset Implicit Arguments.

Section Properties.

Context {B : Backend}.

Lemma shape_eqb_refl sh : shape_eqb sh sh = true.
Proof. unfold shape_eqb. destruct (list_eq_dec Nat.eq_dec sh sh); congruence. Qed.

Lemma tf_binop_same f x y :
  shape x = shape y -> tf_binop f x y = Ok (vzip f x y).
Proof.
  intros H. unfold tf_binop. rewrite H, shape_eqb_refl. unfold vzip. now rewrite H.
Qed.

Lemma d_binop_same f (x y : dual tensor) :
  shape (live x) = shape (live y) -> shape (frozen x) = shape (frozen y) ->
  d_binop f x y = Ok (d_map2 (vzip f) x y).
Proof.
  intros Hl Hf. unfold d_binop. rewrite (tf_binop_same f _ _ Hl). simpl.
  rewrite (tf_binop_same f _ _ Hf). reflexivity.
Qed.

Lemma bind_Ok {A C} (m : result A) (k : A -> result C) c :
  bind m k = Ok c -> exists a, m = Ok a /\ k a = Ok c.
Proof. destruct m; simpl; [eauto | discriminate]. Qed.

Lemma gradient_tape_run s r states actions next_states rewards not_dones n e :
  evaluates s r states actions next_states n e ->
  shape rewards = [n] -> shape not_dones = [n] -> tuned s ->
  gradient_tape s s r states actions next_states rewards not_dones
  = Ok (tape_of s e rewards not_dones, e_rng2 e).
Proof.
  intros (H1 & S1 & H2 & S2 & H3 & S3 & H4 & S4 & H5 & S5 & H6 & S6 & H7 & S7 & H8 & S8)
         Sr Sn Ht.
  unfold gradient_tape, tape_critic, tape_actor, constant. simpl.
  rewrite H1; simpl. rewrite H2; simpl. rewrite H3; simpl.
  rewrite H4; simpl. rewrite H5; simpl.
  rewrite d_binop_same by (simpl; congruence). simpl.
  rewrite d_binop_same by (simpl; congruence). simpl.
  rewrite d_binop_same by (simpl; congruence). simpl.
  rewrite d_binop_same by (simpl; congruence). simpl.
  rewrite d_binop_same by (simpl; congruence). simpl.
  rewrite d_binop_same by (simpl; congruence). simpl.
  rewrite H6; simpl. rewrite H7; simpl. rewrite H8; simpl.
  rewrite d_binop_same by (simpl; congruence). simpl.
  rewrite d_binop_same by (simpl; congruence). simpl.
  unfold tape_of.
  destruct (auto_alpha s) eqn:Ea.
  - destruct (Ht Ea) as ((la & Hla) & (ta & Hta) & _).
    rewrite Hla, Hta. simpl. reflexivity.
  - simpl. reflexivity.
Qed.


Lemma tape_critic_Ok sel v c x y d :
  tape_critic sel v c x y = Ok d ->
  CriticQ_call (sel v) (live x) (live y) = Ok (live d) /\
  CriticQ_call (sel c) (frozen x) (frozen y) = Ok (frozen d).
Proof.
  unfold tape_critic. intros H.
  destruct (CriticQ_call (sel v) (live x) (live y)); [simpl in H | discriminate].
  destruct (CriticQ_call (sel c) (frozen x) (frozen y)); [simpl in H | discriminate].
  injection H as <-. auto.
Qed.

Lemma tape_actor_Ok v c x r a p r' :
  tape_actor v c x r = Ok (a, p, r') ->
  (exists r0, actor_call (actor v) (live x) false r = Ok (live a, live p, r0)) /\
  actor_call (actor c) (frozen x) false r = Ok (frozen a, frozen p, r').
Proof.
  unfold tape_actor. intros H.
  destruct (actor_call (actor v) (live x) false r) as [[[al pl] r0]|];
    [simpl in H | discriminate].
  destruct (actor_call (actor c) (frozen x) false r) as [[[az pz] r1]|];
    [simpl in H | discriminate].
  injection H as <- <- <-. simpl. eauto.
Qed.

Lemma d_binop_Ok f x y d :
  d_binop f x y = Ok d ->
  tf_binop f (live x) (live y) = Ok (live d) /\
  tf_binop f (frozen x) (frozen y) = Ok (frozen d).
Proof.
  unfold d_binop. intros H.
  destruct (tf_binop f (live x) (live y)); [simpl in H | discriminate].
  destruct (tf_binop f (frozen x) (frozen y)); [simpl in H | discriminate].
  injection H as <-. auto.
Qed.

Tactic Notation "inv_bind" hyp(H) "as" ident(x) ident(E) :=
  apply bind_Ok in H; destruct H as (x & E & H); cbv beta in H.

Lemma gradient_tape_varied v s r states actions next_states rewards not_dones n e t rv :
  evaluates s r states actions next_states n e ->
  shape rewards = [n] -> shape not_dones = [n] ->
  gradient_tape v s r states actions next_states rewards not_dones = Ok (t, rv) ->
  let target := regression_target (discount s) rewards not_dones
                  (soft_next_value (alpha s) (e_q1_target e) (e_q2_target e)
                     (e_next_logp e)) in
  target_q t = constant target /\
  frozen (logp t) = e_logp e /\
  (forall q1 q2,
      CriticQ_call (qf1 v) states actions = Ok q1 -> shape q1 = [n] ->
      CriticQ_call (qf2 v) states actions = Ok q2 -> shape q2 = [n] ->
      live (td_loss_q t)
      = F32.add (mean_squared_error q1 target) (mean_squared_error q2 target)) /\
  (forall la ta,
      auto_alpha v = true -> log_alpha v = Some la -> target_alpha v = Some ta ->
      exists l, alpha_loss t = Some l /\
                live l = temperature_loss la ta (e_logp e)).
Proof.
  intros (H1 & S1 & H2 & S2 & H3 & S3 & H4 & S4 & H5 & S5 & H6 & S6 & H7 & S7 & H8 & S8)
         Sr Sn H.
  unfold gradient_tape in H.
  inv_bind H as cq1 Ecq1. inv_bind H as cq2 Ecq2.
  inv_bind H as sn Esn. destruct sn as [[sna nlp] r1].
  inv_bind H as nq1 Enq1. inv_bind H as nq2 Enq2.
  inv_bind H as nmin Enmin. inv_bind H as soft Esoft.
  inv_bind H as boot Eboot. inv_bind H as tq Etq.
  inv_bind H as err1 Eerr1. inv_bind H as err2 Eerr2.
  inv_bind H as sp Esp. destruct sp as [[sa lp] r2].
  inv_bind H as q1p Eq1p. inv_bind H as q2p Eq2p.
  inv_bind H as pmin Epmin. inv_bind H as gap Egap.
  inv_bind H as al Eal.
  injection H as <- <-. simpl.
  (* the frozen copy follows the evaluations of the current agent *)
  apply tape_actor_Ok in Esn. destruct Esn as (_ & Esn). simpl in Esn.
  rewrite H3 in Esn. injection Esn as Ea Eb Ec.
  apply tape_critic_Ok in Enq1, Enq2.
  destruct Enq1 as (_ & Enq1), Enq2 as (_ & Enq2).
  simpl in Enq1, Enq2. rewrite <- Ea in Enq1, Enq2.
  rewrite H4 in Enq1. rewrite H5 in Enq2.
  injection Enq1 as Enq1. injection Enq2 as Enq2.
  apply d_binop_Ok in Enmin, Esoft, Eboot, Etq.
  destruct Enmin as (_ & Enmin), Esoft as (_ & Esoft),
           Eboot as (_ & Eboot), Etq as (_ & Etq).
  simpl in Enmin, Esoft, Eboot, Etq.
  rewrite <- Enq1, <- Enq2 in Enmin.
  rewrite tf_binop_same in Enmin by congruence. injection Enmin as Enmin.
  rewrite <- Enmin, <- Eb in Esoft.
  rewrite tf_binop_same in Esoft by (simpl; congruence). injection Esoft as Esoft.
  rewrite <- Esoft in Eboot.
  rewrite tf_binop_same in Eboot by (simpl; congruence). injection Eboot as Eboot.
  rewrite <- Eboot in Etq.
  rewrite tf_binop_same in Etq by (simpl; congruence). injection Etq as Etq.
  apply tape_actor_Ok in Esp. destruct Esp as (_ & Esp). simpl in Esp.
  rewrite <- Ec, H6 in Esp. injection Esp as Ea' Eb' Ec'.
  assert (Etgt : stop_gradient tq
                 = constant (regression_target (discount s) rewards not_dones
                     (soft_next_value (alpha s) (e_q1_target e) (e_q2_target e)
                        (e_next_logp e)))).
  { unfold stop_gradient, constant. rewrite <- Etq. reflexivity. }
  split; [exact Etgt |]. split; [congruence |]. split.
  - intros q1 q2 Hq1 Sq1 Hq2 Sq2.
    apply tape_critic_Ok in Ecq1, Ecq2.
    destruct Ecq1 as (Ecq1 & _), Ecq2 as (Ecq2 & _).
    simpl in Ecq1, Ecq2. rewrite Hq1 in Ecq1. rewrite Hq2 in Ecq2.
    injection Ecq1 as Ecq1. injection Ecq2 as Ecq2.
    apply d_binop_Ok in Eerr1, Eerr2.
    destruct Eerr1 as (Eerr1 & _), Eerr2 as (Eerr2 & _).
    rewrite Etgt in Eerr1, Eerr2. simpl in Eerr1, Eerr2.
    rewrite <- Ecq1 in Eerr1. rewrite <- Ecq2 in Eerr2.
    rewrite tf_binop_same in Eerr1 by (simpl; congruence).
    rewrite tf_binop_same in Eerr2 by (simpl; congruence).
    injection Eerr1 as Eerr1. injection Eerr2 as Eerr2.
    unfold mean_squared_error. rewrite <- Eerr1, <- Eerr2. reflexivity.
  - intros la ta Hauto Hla Hta. rewrite Hauto, Hla, Hta in Eal. simpl in Eal.
    destruct (log_alpha s) as [lc|]; [simpl in Eal | discriminate].
    injection Eal as <-. eexists. split; [reflexivity |].
    simpl. unfold temperature_loss. rewrite Eb'. reflexivity.
Qed.


(** *** The tape at the current values of the variables *)

Lemma tape_critic_settled sel s x y d :
  settled x -> settled y -> tape_critic sel s s x y = Ok d -> settled d.
Proof.
  unfold settled. intros Hx Hy H. apply tape_critic_Ok in H.
  destruct H as (Hl & Hf). rewrite Hx, Hy, Hf in Hl. now injection Hl.
Qed.

Lemma tape_actor_settled s x r a p r' :
  settled x -> tape_actor s s x r = Ok (a, p, r') -> settled a /\ settled p.
Proof.
  unfold settled. intros Hx H. apply tape_actor_Ok in H.
  destruct H as ((r0 & Hl) & Hf). rewrite Hx, Hf in Hl.
  injection Hl as Ha Hp _. auto.
Qed.

Lemma d_binop_settled f x y d :
  settled x -> settled y -> d_binop f x y = Ok d -> settled d.
Proof.
  unfold settled. intros Hx Hy H. apply d_binop_Ok in H.
  destruct H as (Hl & Hf). rewrite Hx, Hy, Hf in Hl. now injection Hl.
Qed.

Lemma d_map_settled {A C} (f : A -> C) x : settled x -> settled (d_map f x).
Proof. unfold settled, d_map. simpl. now intros ->. Qed.

Lemma d_map2_settled {A A' C} (f : A -> A' -> C) x y :
  settled x -> settled y -> settled (d_map2 f x y).
Proof. unfold settled, d_map2. simpl. now intros -> ->. Qed.

Lemma constant_settled {A} (x : A) : settled (constant x).
Proof. reflexivity. Qed.

Lemma stop_gradient_settled {A} (x : dual A) : settled (stop_gradient x).
Proof. reflexivity. Qed.

Lemma watch_settled {A} (sel : SAC -> A) s : settled (watch sel s s).
Proof. reflexivity. Qed.

(** With the current values for the variables under differentiation,
    the two components of what [_train_body] returns are one. *)
Lemma gradient_tape_settled s r states actions next_states rewards not_dones t r' :
  gradient_tape s s r states actions next_states rewards not_dones = Ok (t, r') ->
  settled (target_q t) /\ settled (policy_loss t) /\ settled (current_q1 t) /\
  settled (td_loss_q1 t) /\ settled (td_loss_q t) /\ settled (logp t).
Proof.
  intros H. unfold gradient_tape in H.
  inv_bind H as cq1 Ecq1. inv_bind H as cq2 Ecq2.
  inv_bind H as sn Esn. destruct sn as [[sna nlp] r1].
  inv_bind H as nq1 Enq1. inv_bind H as nq2 Enq2.
  inv_bind H as nmin Enmin. inv_bind H as soft Esoft.
  inv_bind H as boot Eboot. inv_bind H as tq Etq.
  inv_bind H as err1 Eerr1. inv_bind H as err2 Eerr2.
  inv_bind H as sp Esp. destruct sp as [[sa lp] r2].
  inv_bind H as q1p Eq1p. inv_bind H as q2p Eq2p.
  inv_bind H as pmin Epmin. inv_bind H as gap Egap.
  inv_bind H as al Eal.
  injection H as <- <-. simpl.
  pose proof (tape_critic_settled _ _ _ _ _ (constant_settled _) (constant_settled _) Ecq1)
    as Scq1.
  pose proof (tape_critic_settled _ _ _ _ _ (constant_settled _) (constant_settled _) Ecq2)
    as Scq2.
  destruct (tape_actor_settled _ _ _ _ _ _ (constant_settled _) Esp) as (Ssa & Slp).
  pose proof (tape_critic_settled _ _ _ _ _ (constant_settled _) Ssa Eq1p) as Sq1p.
  pose proof (tape_critic_settled _ _ _ _ _ (constant_settled _) Ssa Eq2p) as Sq2p.
  pose proof (d_binop_settled _ _ _ _ Sq1p Sq2p Epmin) as Spmin.
  pose proof (d_binop_settled _ _ _ _
                (d_map2_settled _ _ _ (watch_settled alpha s) Slp) Spmin Egap) as Sgap.
  pose proof (d_binop_settled _ _ _ _ (stop_gradient_settled tq) Scq1 Eerr1) as Serr1.
  pose proof (d_binop_settled _ _ _ _ (stop_gradient_settled tq) Scq2 Eerr2) as Serr2.
  assert (Sl1 : settled (d_map tf_reduce_mean
                           (d_scalar_r tf_pow err1 (constant (F32.of_Z 2))))).
  { apply d_map_settled, d_map2_settled; [exact Serr1 | apply constant_settled]. }
  assert (Sl2 : settled (d_map tf_reduce_mean
                           (d_scalar_r tf_pow err2 (constant (F32.of_Z 2))))).
  { apply d_map_settled, d_map2_settled; [exact Serr2 | apply constant_settled]. }
  split; [apply stop_gradient_settled |].
  split; [apply d_map_settled; exact Sgap |].
  split; [exact Scq1 |]. split; [exact Sl1 |].
  split; [apply d_map2_settled; assumption | exact Slp].
Qed.
(** *** The updates *)

Lemma squeeze_column n x :
  shape x = [n; 1] -> squeeze_axis1 x = Ok (squeezed n x).
Proof. intros H. unfold squeeze_axis1. rewrite H. reflexivity. Qed.

Lemma steps_frame s block :
  let s1 := critic_step s block in
  let s3 := actor_step s (target_step s1) block in
  (auto_alpha s3 = auto_alpha s /\ log_alpha s3 = log_alpha s /\
   alpha s3 = alpha s /\ target_alpha s3 = target_alpha s /\
   alpha_optimizer s3 = alpha_optimizer s) /\
  (state_ndim s3 = state_ndim s /\ discount s3 = discount s /\
   policy_name s3 = policy_name s /\ vf_target s3 = vf_target s /\
   tau s3 = tau s) /\
  (qf1 s3 = qf1 s1 /\ qf2 s3 = qf2 s1 /\ qf_optimizer s3 = qf_optimizer s1) /\
  (qf1_target s1 = qf1_target s /\ qf2_target s1 = qf2_target s) /\
  qf1_target s3
  = CriticQ_assign (qf1_target s)
      (update_target_variables (CriticQ_weights (qf1_target s))
         (CriticQ_weights (qf1 s1)) (tau s)) /\
  qf2_target s3
  = CriticQ_assign (qf2_target s)
      (update_target_variables (CriticQ_weights (qf2_target s))
         (CriticQ_weights (qf2 s1)) (tau s)).
Proof.
  unfold actor_step, target_step, critic_step.
  destruct (apply_gradients (qf_optimizer s) _) as [o1 w1]. simpl.
  destruct (apply_gradients (actor_optimizer s) _) as [o2 w2]. simpl.
  repeat split; reflexivity.
Qed.

Lemma alpha_step_inv rec self tape block s' :
  alpha_step rec self tape block = Ok s' ->
  (actor s' = actor self /\ actor_optimizer s' = actor_optimizer self /\
   qf1 s' = qf1 self /\ qf2 s' = qf2 self /\ qf_optimizer s' = qf_optimizer self /\
   qf1_target s' = qf1_target self /\ qf2_target s' = qf2_target self) /\
  (state_ndim s' = state_ndim self /\ discount s' = discount self /\
   policy_name s' = policy_name self /\ vf_target s' = vf_target self /\
   tau s' = tau self) /\
  (auto_alpha s' = auto_alpha self /\ target_alpha s' = target_alpha self) /\
  (auto_alpha self = false -> s' = self) /\
  (auto_alpha self = true ->
   exists la, log_alpha s' = Some la /\ alpha s' = tf_exp la /\
              exists o, alpha_optimizer s' = Some o).
Proof.
  unfold alpha_step. destruct (auto_alpha self) eqn:Ea.
  - intros H.
    inv_bind H as l El. inv_bind H as la Ela. inv_bind H as o Eo.
    destruct (apply_gradients o _) as [o' w']. injection H as <-. simpl.
    repeat split; try reflexivity; try assumption; try discriminate.
    intros _. eexists. split; [reflexivity |]. split; [reflexivity |]. eauto.
  - intros H. injection H as <-.
    repeat split; try reflexivity; try assumption; try discriminate.
Qed.

Lemma alpha_step_ok rec self tape block :
  (auto_alpha self = true ->
   (exists l, alpha_loss tape = Some l) /\
   (exists la, log_alpha self = Some la) /\
   (exists o, alpha_optimizer self = Some o)) ->
  exists s', alpha_step rec self tape block = Ok s'.
Proof.
  unfold alpha_step. destruct (auto_alpha self).
  - intros H. destruct (H eq_refl) as ((l & Hl) & (la & Hla) & (o & Ho)).
    rewrite Hl, Hla, Ho. simpl.
    destruct (apply_gradients o _) as [o' w']. eauto.
  - eauto.
Qed.

Lemma tape_of_alpha_loss s e rw nd :
  tuned s -> auto_alpha s = true -> exists l, alpha_loss (tape_of s e rw nd) = Some l.
Proof.
  intros Ht Ha. destruct (Ht Ha) as ((la & Hla) & (ta & Hta) & _).
  unfold tape_of. simpl. rewrite Ha, Hla, Hta. eauto.
Qed.

Lemma train_steps_run s r states actions next_states rewards dones n e :
  evaluates s r states actions next_states n e ->
  shape rewards = [n] -> shape dones = [n] -> tuned s ->
  let block v :=
    gradient_tape v s r states actions next_states rewards (not_dones_of dones) in
  let tape := tape_of s e rewards (not_dones_of dones) in
  exists s',
    alpha_step s (actor_step s (target_step (critic_step s block)) block) tape block
    = Ok s' /\
    train_steps s r states actions next_states rewards dones
    = Ok (returned tape, s', e_rng2 e).
Proof.
  intros He Sr Sd Ht block tape.
  destruct (steps_frame s block) as ((Fa & Fla & _ & _ & Fo) & _).
  destruct (alpha_step_ok s (actor_step s (target_step (critic_step s block)) block)
              tape block) as (s' & Hs').
  { rewrite Fa, Fla, Fo. intros Ha. split.
    - apply tape_of_alpha_loss; assumption.
    - destruct (Ht Ha) as (? & _ & ?). auto. }
  exists s'. split; [exact Hs' |].
  subst block tape.
  cbv beta zeta delta [train_steps cast_float32].
  fold (not_dones_of dones).
  rewrite (@gradient_tape_run s r states actions next_states rewards
             (not_dones_of dones) n e He Sr Sd Ht).
  cbv beta iota delta [bind]. rewrite Hs'. reflexivity.
Qed.

Lemma train_body_run s r states actions next_states rewards dones weights n e :
  shape rewards = [n; 1] -> shape dones = [n; 1] ->
  evaluates s r states actions next_states n e -> tuned s ->
  let rewards' := squeezed n rewards in
  let dones' := squeezed n dones in
  let block v :=
    gradient_tape v s r states actions next_states rewards' (not_dones_of dones') in
  let tape := tape_of s e rewards' (not_dones_of dones') in
  exists s',
    alpha_step s (actor_step s (target_step (critic_step s block)) block) tape block
    = Ok s' /\
    _train_body s r states actions next_states rewards dones weights
    = Ok (returned tape, s', e_rng2 e).
Proof.
  intros Sr Sd He Ht rewards' dones' block tape.
  destruct (@train_steps_run s r states actions next_states rewards' dones' n e
              He eq_refl eq_refl Ht)
    as (s' & Hs' & Hrun).
  exists s'. split; [exact Hs' |].
  unfold _train_body. rewrite (squeeze_column _ _ Sr), (squeeze_column _ _ Sd).
  rewrite Sr, Sd. exact Hrun.
Qed.

(** *** The critic loss *)

(** C1.  In a training step on a batch of [n] transitions, the critic
    regression target is [rewards + (1 - dones) * discount *
    (min(Q1_target(next_states, next_actions), Q2_target(next_states,
    next_actions)) - alpha * next_logp)], where [(next_actions,
    next_logp)] is the sample that the actor draws on [next_states]; no
    gradient flows through it: whatever values [v] the variables under
    differentiation take, the target on the tape is this same tensor;
    and the critic loss is the mean squared error of [current_q1]
    against it plus that of [current_q2], at the current critics and at
    any [v]. *)
Theorem critic_target_and_loss
    s r states actions next_states rewards dones weights n e :
  shape rewards = [n; 1] -> shape dones = [n; 1] -> tuned s ->
  evaluates s r states actions next_states n e ->
  let rewards' := squeezed n rewards in
  let not_dones := not_dones_of (squeezed n dones) in
  let block v :=
    gradient_tape v s r states actions next_states rewards' not_dones in
  exists tape s' r',
    block s = Ok (tape, r') /\
    _train_body s r states actions next_states rewards dones weights
    = Ok (returned tape, s', r') /\
    (* the sample on the next states, and the target critics on it *)
    actor_call (actor s) next_states false r
    = Ok (value (sample_next_actions tape), value (next_logp tape), e_rng1 e) /\
    CriticQ_call (qf1_target s) next_states (value (sample_next_actions tape))
    = Ok (value (next_q1_target tape)) /\
    CriticQ_call (qf2_target s) next_states (value (sample_next_actions tape))
    = Ok (value (next_q2_target tape)) /\
    (* the target *)
    value (target_q tape)
    = regression_target (discount s) rewards' not_dones
        (soft_next_value (alpha s) (value (next_q1_target tape))
           (value (next_q2_target tape)) (value (next_logp tape))) /\
    (* the loss *)
    CriticQ_call (qf1 s) states actions = Ok (value (current_q1 tape)) /\
    CriticQ_call (qf2 s) states actions = Ok (value (current_q2 tape)) /\
    value (td_loss_q tape)
    = F32.add (mean_squared_error (value (current_q1 tape)) (value (target_q tape)))
        (mean_squared_error (value (current_q2 tape)) (value (target_q tape))) /\
    (* no gradient through the target *)
    (forall v t rv,
        block v = Ok (t, rv) ->
        target_q t = constant (value (target_q tape)) /\
        forall q1 q2,
          CriticQ_call (qf1 v) states actions = Ok q1 -> shape q1 = [n] ->
          CriticQ_call (qf2 v) states actions = Ok q2 -> shape q2 = [n] ->
          live (td_loss_q t)
          = F32.add (mean_squared_error q1 (value (target_q tape)))
              (mean_squared_error q2 (value (target_q tape)))).
Proof.
  intros Sr Sd Ht He rewards' not_dones block.
  destruct (train_body_run _ _ _ _ _ _ _ weights _ _ Sr Sd He Ht) as (s' & _ & Hrun).
  exists (tape_of s e rewards' not_dones), s', (e_rng2 e).
  split; [exact (gradient_tape_run _ _ _ _ _ rewards' not_dones _ _
                   He eq_refl eq_refl Ht) |].
  split; [exact Hrun |].
  pose proof He as (H1 & _ & H2 & _ & H3 & _ & H4 & _ & H5 & _).
  split; [exact H3 |]. split; [exact H4 |]. split; [exact H5 |].
  split; [reflexivity |].
  split; [exact H1 |]. split; [exact H2 |]. split; [reflexivity |].
  intros v t rv Hv.
  destruct (gradient_tape_varied _ _ _ _ _ _ rewards' not_dones _ _ _ _
              He eq_refl eq_refl Hv) as (G1 & _ & G2 & _).
  split; assumption.
Qed.

(** *** The actor loss *)

(** C2.  In a training step, the actor loss is the mean over the batch
    of [alpha * logp' - min(Q1(states, actions'), Q2(states,
    actions'))], where [(actions', logp')] is a second sample of the
    actor, drawn on [states] from the state in which the first sample
    (that of the bootstrap target) left the generator, and [Q1], [Q2]
    are the live critics [qf1], [qf2]. *)
Theorem actor_loss
    s r states actions next_states rewards dones weights n e :
  shape rewards = [n; 1] -> shape dones = [n; 1] -> tuned s ->
  evaluates s r states actions next_states n e ->
  exists tape s' r',
    gradient_tape s s r states actions next_states
      (squeezed n rewards) (not_dones_of (squeezed n dones)) = Ok (tape, r') /\
    _train_body s r states actions next_states rewards dones weights
    = Ok (returned tape, s', r') /\
    (* the first sample, on the next states, and the second, on the states *)
    actor_call (actor s) next_states false r
    = Ok (value (sample_next_actions tape), value (next_logp tape), e_rng1 e) /\
    actor_call (actor s) states false (e_rng1 e)
    = Ok (value (sample_actions tape), value (logp tape), r') /\
    (* the live critics on the second sample *)
    CriticQ_call (qf1 s) states (value (sample_actions tape))
    = Ok (value (current_q1_policy tape)) /\
    CriticQ_call (qf2 s) states (value (sample_actions tape))
    = Ok (value (current_q2_policy tape)) /\
    value (policy_loss tape)
    = actor_objective (alpha s) (value (logp tape))
        (value (current_q1_policy tape)) (value (current_q2_policy tape)).
Proof.
  intros Sr Sd Ht He.
  destruct (train_body_run _ _ _ _ _ _ _ weights _ _ Sr Sd He Ht) as (s' & _ & Hrun).
  exists (tape_of s e (squeezed n rewards) (not_dones_of (squeezed n dones))),
    s', (e_rng2 e).
  split; [exact (gradient_tape_run _ _ _ _ _ (squeezed n rewards)
                  (not_dones_of (squeezed n dones)) _ _ He eq_refl eq_refl Ht) |].
  split; [exact Hrun |].
  destruct He as (_ & _ & _ & _ & H3 & _ & _ & _ & _ & _ & H6 & _ & H7 & _ & H8 & _).
  simpl. repeat split; assumption || reflexivity.
Qed.

(** *** The order of the updates *)

(** The block with other critics for the variables under
    differentiation: it returns when these critics return one value for
    each transition. *)
Lemma gradient_tape_run_critics
    s r states actions next_states rewards not_dones n e o c1 c2 q1 q2 q1p q2p :
  evaluates s r states actions next_states n e ->
  shape rewards = [n] -> shape not_dones = [n] -> tuned s ->
  CriticQ_call c1 states actions = Ok q1 -> shape q1 = [n] ->
  CriticQ_call c2 states actions = Ok q2 -> shape q2 = [n] ->
  CriticQ_call c1 states (e_actions e) = Ok q1p -> shape q1p = [n] ->
  CriticQ_call c2 states (e_actions e) = Ok q2p -> shape q2p = [n] ->
  exists t,
    gradient_tape (set_critics s o c1 c2) s r states actions next_states
      rewards not_dones = Ok (t, e_rng2 e).
Proof.
  intros (H1 & S1 & H2 & S2 & H3 & S3 & H4 & S4 & H5 & S5 & H6 & S6 & H7 & S7 & H8 & S8)
         Sr Sn Ht Hq1 Sq1 Hq2 Sq2 Hq1p Sq1p Hq2p Sq2p.
  unfold gradient_tape, tape_critic, tape_actor, constant. simpl.
  rewrite Hq1; simpl. rewrite H1; simpl.
  rewrite Hq2; simpl. rewrite H2; simpl.
  rewrite H3; simpl.
  rewrite H4; simpl. rewrite H5; simpl.
  rewrite d_binop_same by (simpl; congruence). simpl.
  rewrite d_binop_same by (simpl; congruence). simpl.
  rewrite d_binop_same by (simpl; congruence). simpl.
  rewrite d_binop_same by (simpl; congruence). simpl.
  rewrite d_binop_same by (simpl; congruence). simpl.
  rewrite d_binop_same by (simpl; congruence). simpl.
  rewrite H6; simpl.
  rewrite Hq1p; simpl. rewrite H7; simpl.
  rewrite Hq2p; simpl. rewrite H8; simpl.
  rewrite d_binop_same by (simpl; congruence). simpl.
  rewrite d_binop_same by (simpl; congruence). simpl.
  destruct (auto_alpha s) eqn:Ea.
  - destruct (Ht Ea) as ((la & Hla) & (ta & Hta) & _).
    rewrite Hla, Hta. simpl. eauto.
  - simpl. eauto.
Qed.


(** C3.  In a training step, the regression target of the critic loss
    is made from the target critics as they are before the step, the
    gradient step on the critics leaves the target critics as they
    are, and the soft update of the two target critics comes after it:
    it reads the critics that the gradient step has produced.  The
    target on the tape does not depend on the variables that the
    updates assign.  The gradient step itself: the loss that it
    differentiates is, at every value of the variables of the two
    critics, the mean squared error of the critics at that value
    against this one target, the target made from the target critics
    before the step; and the critics after the step are the critics
    before it, assigned what the optimizer makes of the gradient of
    this loss at their weights. *)
Theorem target_update_after_critic_step
    s r states actions next_states rewards dones weights n e :
  shape rewards = [n; 1] -> shape dones = [n; 1] -> tuned s ->
  evaluates s r states actions next_states n e ->
  let rewards' := squeezed n rewards in
  let not_dones := not_dones_of (squeezed n dones) in
  let block v :=
    gradient_tape v s r states actions next_states rewards' not_dones in
  let s1 := critic_step s block in
  (* the variables of the critic step, the critics at other values of
     these variables, the loss as a function of them, its gradient and
     what the optimizer makes of it *)
  let n1 := length (CriticQ_weights (qf1 s)) in
  let trainable_var := CriticQ_weights (qf1 s) ++ CriticQ_weights (qf2 s) in
  let varied ws :=
    set_critics s (qf_optimizer s)
      (CriticQ_assign (qf1 s) (firstn n1 ws))
      (CriticQ_assign (qf2 s) (skipn n1 ws)) in
  let td_loss ws := '(t, _) <- block (varied ws) ;; Ok (live (td_loss_q t)) in
  let q_grad := tape_gradient td_loss trainable_var in
  let applied := apply_gradients (qf_optimizer s) (combine q_grad trainable_var) in
  exists tape s' r',
    block s = Ok (tape, r') /\
    _train_body s r states actions next_states rewards dones weights
    = Ok (returned tape, s', r') /\
    (* the target of the critic loss is made from the target critics of [s] *)
    CriticQ_call (qf1_target s) next_states (value (sample_next_actions tape))
    = Ok (value (next_q1_target tape)) /\
    CriticQ_call (qf2_target s) next_states (value (sample_next_actions tape))
    = Ok (value (next_q2_target tape)) /\
    value (target_q tape)
    = regression_target (discount s) rewards' not_dones
        (soft_next_value (alpha s) (value (next_q1_target tape))
           (value (next_q2_target tape)) (value (next_logp tape))) /\
    (forall v t rv, block v = Ok (t, rv) -> target_q t = target_q tape) /\
    (* the critic step leaves the target critics as they are *)
    qf1_target s1 = qf1_target s /\ qf2_target s1 = qf2_target s /\
    (* the critics of [s'] are those of the critic step, and its target
       critics are updated from them *)
    qf1 s' = qf1 s1 /\ qf2 s' = qf2 s1 /\
    qf1_target s'
    = CriticQ_assign (qf1_target s)
        (update_target_variables (CriticQ_weights (qf1_target s))
           (CriticQ_weights (qf1 s1)) (tau s)) /\
    qf2_target s'
    = CriticQ_assign (qf2_target s)
        (update_target_variables (CriticQ_weights (qf2_target s))
           (CriticQ_weights (qf2 s1)) (tau s)) /\
    (* the loss that the critic step differentiates is the loss against
       this target, at every value of the variables of the critics *)
    (forall ws q1 q2 q1p q2p,
        CriticQ_call (qf1 (varied ws)) states actions = Ok q1 -> shape q1 = [n] ->
        CriticQ_call (qf2 (varied ws)) states actions = Ok q2 -> shape q2 = [n] ->
        CriticQ_call (qf1 (varied ws)) states (value (sample_actions tape)) = Ok q1p ->
        shape q1p = [n] ->
        CriticQ_call (qf2 (varied ws)) states (value (sample_actions tape)) = Ok q2p ->
        shape q2p = [n] ->
        td_loss ws
        = Ok (F32.add (mean_squared_error q1 (value (target_q tape)))
                (mean_squared_error q2 (value (target_q tape))))) /\
    (* and the critics of [s'] are the critics of [s] assigned what the
       optimizer makes of the gradient of this loss *)
    qf1 s' = CriticQ_assign (qf1 s) (firstn n1 (snd applied)) /\
    qf2 s' = CriticQ_assign (qf2 s) (skipn n1 (snd applied)) /\
    qf_optimizer s' = fst applied.
Proof.
  intros Sr Sd Ht He rewards' not_dones block s1 n1 trainable_var varied td_loss
         q_grad applied.
  destruct (train_body_run _ _ _ _ _ _ _ weights _ _ Sr Sd He Ht) as (s' & Hs' & Hrun).
  exists (tape_of s e rewards' not_dones), s', (e_rng2 e).
  split; [exact (gradient_tape_run _ _ _ _ _ rewards' not_dones _ _ He eq_refl eq_refl Ht) |].
  split; [exact Hrun |].
  destruct (alpha_step_inv _ _ _ _ _ Hs') as ((_ & _ & A1 & A2 & A5 & A3 & A4) & _).
  destruct (steps_frame s block) as (_ & _ & (F1 & F2 & F7) & (F3 & F4) & F5 & F6).
  pose proof He as (_ & _ & _ & _ & _ & _ & H4 & _ & H5 & _).
  split; [exact H4 |]. split; [exact H5 |].
  split; [reflexivity |].
  split.
  { intros v t rv Hv.
    destruct (gradient_tape_varied _ _ _ _ _ _ rewards' not_dones _ _ _ _
                He eq_refl eq_refl Hv) as (H1 & _).
    rewrite H1. reflexivity. }
  split; [exact F3 |]. split; [exact F4 |].
  split; [rewrite A1; exact F1 |]. split; [rewrite A2; exact F2 |].
  split; [rewrite A3; exact F5 |]. split; [rewrite A4; exact F6 |].
  split.
  { intros ws q1 q2 q1p q2p Hq1 Sq1 Hq2 Sq2 Hq1p Sq1p Hq2p Sq2p.
    destruct (gradient_tape_run_critics s r states actions next_states
                rewards' not_dones n e (qf_optimizer s)
                (CriticQ_assign (qf1 s) (firstn n1 ws))
                (CriticQ_assign (qf2 s) (skipn n1 ws)) q1 q2 q1p q2p
                He eq_refl eq_refl Ht Hq1 Sq1 Hq2 Sq2 Hq1p Sq1p Hq2p Sq2p)
      as (t & Hblock).
    destruct (gradient_tape_varied _ _ _ _ _ _ rewards' not_dones _ _ _ _
                He eq_refl eq_refl Hblock) as (_ & _ & Hloss & _).
    unfold td_loss, block, varied. rewrite Hblock. cbn [bind].
    rewrite (Hloss q1 q2 Hq1 Sq1 Hq2 Sq2). reflexivity. }
  assert (E1 : qf1 s' = qf1 s1) by (rewrite A1; exact F1).
  assert (E2 : qf2 s' = qf2 s1) by (rewrite A2; exact F2).
  assert (E3 : qf_optimizer s' = qf_optimizer s1) by (rewrite A5; exact F7).
  rewrite E1, E2, E3.
  unfold s1, critic_step.
  fold n1. fold trainable_var. fold varied. fold block.
  subst applied q_grad td_loss.
  destruct (apply_gradients (qf_optimizer s) _) as [o1 w1]. simpl.
  split; [reflexivity |]. split; reflexivity.
Qed.


(** *** Terminal transitions *)

Lemma length_zip_with {A A' C} (f : A -> A' -> C) l k :
  length (zip_with f l k) = Nat.min (length l) (length k).
Proof.
  revert k. induction l as [|a l IH]; intros [|b k]; simpl; auto.
Qed.

Lemma one_minus_one : F32.sub F32.one F32.one = F32.zero.
Proof. vm_compute. reflexivity. Qed.

Lemma masked_is_zero gamma x :
  F32.is_finite gamma = true -> F32.is_finite x = true ->
  F32.is_zero (F32.mul (F32.mul (F32.sub F32.one F32.one) gamma) x) = true.
Proof.
  rewrite one_minus_one. unfold F32.zero, F32.mul.
  destruct gamma; try discriminate; destruct x; try discriminate; reflexivity.
Qed.

Lemma add_zero_same x z : F32.is_zero z = true -> F32.same (F32.add x z) x.
Proof.
  destruct z as [sz| | |]; try discriminate. intros _.
  unfold F32.same, F32.add.
  destruct x as [sx| | |]; simpl; auto.
  destruct sx, sz; simpl; auto.
Qed.

(** Otherwise the product by the zero is a NaN, and so is the sum. *)
Lemma unmasked_is_nan gamma x y :
  F32.is_finite gamma = true -> F32.is_finite x = false ->
  F32.add y (F32.mul (F32.mul (F32.sub F32.one F32.one) gamma) x) = F32.nan.
Proof.
  rewrite one_minus_one. unfold F32.zero, F32.mul, F32.add, F32.nan.
  destruct gamma; try discriminate; destruct x; try discriminate;
    destruct y; reflexivity.
Qed.

Lemma masked_data gamma rs : forall ds softs,
  Forall (fun d => d = F32.one) ds ->
  Forall (fun x => F32.is_finite x = true) softs ->
  length ds = length rs -> length softs = length rs ->
  let boot := zip_with F32.mul
                (map (fun e => F32.mul e gamma) (map (fun d => F32.sub F32.one d) ds))
                softs in
  F32.is_finite gamma = true ->
  Forall (fun x => F32.is_zero x = true) boot /\
  Forall2 F32.same (zip_with F32.add rs boot) rs.
Proof.
  induction rs as [|x rs IH]; intros [|d ds] [|y softs] Hd Hs Ld Ls boot Hg;
    try discriminate; simpl in *.
  - split; constructor.
  - inversion Hd as [|? ? Hd1 Hd2]; subst.
    inversion Hs as [|? ? Hs1 Hs2]; subst.
    destruct (IH ds softs Hd2 Hs2) as (IH1 & IH2); try lia; try assumption.
    pose proof (masked_is_zero gamma y Hg Hs1) as Hz.
    split; constructor; auto using add_zero_same.
Qed.

(** C6, as amended.  On a batch in which every entry of [dones] is 1,
    when the discount and every entry of the soft next value
    [min(Q1_target, Q2_target) - alpha * next_logp] are finite, every
    entry of the bootstrap term [not_dones * discount * soft_next_value]
    is a zero and the critic regression target is, entry by entry, the
    reward (the same datum, up to the sign of a zero reward). *)
Theorem terminal_batch_target
    s r states actions next_states rewards dones weights n e :
  shape rewards = [n; 1] -> shape dones = [n; 1] -> tuned s ->
  evaluates s r states actions next_states n e ->
  well_formed rewards -> well_formed dones ->
  well_formed (e_q1_target e) -> well_formed (e_q2_target e) ->
  well_formed (e_next_logp e) ->
  Forall (fun d => d = F32.one) (data dones) ->
  F32.is_finite (discount s) = true ->
  let soft :=
    soft_next_value (alpha s) (e_q1_target e) (e_q2_target e) (e_next_logp e) in
  Forall (fun x => F32.is_finite x = true) (data soft) ->
  exists tape s' r',
    _train_body s r states actions next_states rewards dones weights
    = Ok (returned tape, s', r') /\
    value (soft_next_q tape) = soft /\
    shape (value (target_q tape)) = [n] /\
    length (data (value (target_q tape))) = n /\
    Forall2 F32.same (data (value (target_q tape))) (data rewards) /\
    Forall (fun x => F32.is_zero x = true)
      (data (vzip F32.mul
               (tf_map (fun e => F32.mul e (discount s))
                  (not_dones_of (squeezed n dones)))
               soft)).
Proof.
  intros Sr Sd Ht He Wr Wd W1 W2 W3 Hd Hg soft Hs.
  destruct (train_body_run _ _ _ _ _ _ _ weights _ _ Sr Sd He Ht) as (s' & _ & Hrun).
  exists (tape_of s e (squeezed n rewards) (not_dones_of (squeezed n dones))),
    s', (e_rng2 e).
  split; [exact Hrun |]. split; [reflexivity |]. split; [reflexivity |].
  pose proof He as (_ & _ & _ & _ & _ & S3 & _ & S4 & _ & S5 & _).
  unfold well_formed in *. rewrite Sr in Wr. rewrite Sd in Wd.
  rewrite S4 in W1. rewrite S5 in W2. rewrite S3 in W3. simpl in Wr, Wd, W1, W2, W3.
  rewrite Nat.mul_1_r in Wr, Wd, W1, W2, W3.
  assert (Ls : length (data soft) = n).
  { unfold soft, soft_next_value, vzip. simpl.
    rewrite !length_zip_with, length_map. lia. }
  destruct (masked_data (discount s) (data rewards) (data dones) (data soft))
    as (Hz & Hsame); try assumption; try lia.
  simpl. fold soft. split; [| split; assumption].
  rewrite !length_zip_with, !length_map. lia.
Qed.


(** *** The shape contract of the training step *)

(** C5, as amended.  The training step raises an assertion failure
    when [dones] or [rewards] is not of rank 2.  When they are of shape
    [(n, 1)] and [(m, 1)] it squeezes them to shape [(n,)] and [(m,)]
    and everything else in the step is computed from the squeezed
    tensors.  When both are of rank 2 and the second dimension of one
    of them is not 1, the squeeze raises a shape error, which is not an
    assertion failure. *)
Theorem rank_assertions_and_squeeze
    s r states actions next_states rewards dones weights :
  (length (shape dones) <> 2 \/ length (shape rewards) <> 2 ->
   _train_body s r states actions next_states rewards dones weights
   = Raise AssertionError) /\
  (forall n m,
      shape rewards = [n; 1] -> shape dones = [m; 1] ->
      squeeze_axis1 rewards = Ok (squeezed n rewards) /\
      squeeze_axis1 dones = Ok (squeezed m dones) /\
      _train_body s r states actions next_states rewards dones weights
      = train_steps s r states actions next_states
          (squeezed n rewards) (squeezed m dones)) /\
  (length (shape dones) = 2 -> length (shape rewards) = 2 ->
   nth 1 (shape rewards) 0 <> 1 \/ nth 1 (shape dones) 0 <> 1 ->
   _train_body s r states actions next_states rewards dones weights
   = Raise ShapeError).
Proof.
  split; [| split].
  - intros H. unfold _train_body.
    destruct (Nat.eqb_spec (length (shape dones)) 2) as [Ed|Ed]; [| reflexivity].
    destruct (Nat.eqb_spec (length (shape rewards)) 2) as [Er|Er]; [| reflexivity].
    destruct H; contradiction.
  - intros n m Sr Sd.
    rewrite (squeeze_column _ _ Sr), (squeeze_column _ _ Sd).
    split; [reflexivity |]. split; [reflexivity |].
    unfold _train_body. rewrite (squeeze_column _ _ Sr), (squeeze_column _ _ Sd).
    rewrite Sr, Sd. reflexivity.
  - intros Ld Lr H. unfold _train_body, squeeze_axis1. rewrite Ld, Lr. simpl.
    destruct (shape rewards) as [|a [|b [|c l]]]; try discriminate.
    destruct (shape dones) as [|a' [|b' [|c' l']]]; try discriminate.
    simpl in H.
    destruct b as [|[|b]]; try reflexivity;
      destruct b' as [|[|b']]; try reflexivity.
    destruct H as [H|H]; contradiction H; reflexivity.
Qed.

(** *** Action selection *)

(** C7.  On a single observation, one whose rank is the state rank
    of the agent, action selection calls the actor on the batch of one
    that [expand_dims] makes of it and returns what the actor returns
    without the batch dimension: when the actor returns actions of
    shape [(1, d)] and log-probabilities of shape [(1,)], the caller
    receives an action of shape [(d,)] and a log-probability of rank
    0. *)
Theorem single_observation
    s r state test d acts logps r' :
  length (shape state) = state_ndim s ->
  actor_call (actor s) (expand_dims0 state) test r = Ok (acts, logps, r') ->
  shape acts = [1; d] -> shape logps = [1] ->
  shape (expand_dims0 state) = 1 :: shape state /\
  data (expand_dims0 state) = data state /\
  exists action logp,
    get_action s r state test = Ok (action, logp, r') /\
    shape action = [d] /\ data action = firstn d (data acts) /\
    shape logp = [] /\ data logp = firstn 1 (data logps).
Proof.
  intros Hr Hc Sa Sl. split; [reflexivity |]. split; [reflexivity |].
  unfold get_action, _get_action_body. rewrite Hr, Nat.eqb_refl, Hc. simpl.
  unfold index0. rewrite Sa, Sl. simpl.
  eexists _, _. split; [reflexivity |]. simpl. rewrite Nat.mul_1_r. auto.
Qed.

(** *** The agents that training reaches *)

Lemma train_steps_inv s r states actions next_states rewards dones out s' r' :
  train_steps s r states actions next_states rewards dones = Ok (out, s', r') ->
  let block v :=
    gradient_tape v s r states actions next_states rewards (not_dones_of dones) in
  exists tape,
    block s = Ok (tape, r') /\ out = returned tape /\
    alpha_step s (actor_step s (target_step (critic_step s block)) block) tape block
    = Ok s'.
Proof.
  intros H. cbv zeta. revert H.
  unfold train_steps, cast_float32. fold (not_dones_of dones). intros H.
  inv_bind H as tr Etr. destruct tr as [tape r0].
  inv_bind H as s4 Es4. injection H as <- <- <-.
  exists tape. auto.
Qed.

Lemma train_body_inv s r states actions next_states rewards dones weights out s' r' :
  _train_body s r states actions next_states rewards dones weights = Ok (out, s', r') ->
  exists rewards' dones',
    squeeze_axis1 rewards = Ok rewards' /\ squeeze_axis1 dones = Ok dones' /\
    train_steps s r states actions next_states rewards' dones' = Ok (out, s', r').
Proof.
  unfold _train_body. intros H.
  inv_bind H as u1 E1. inv_bind H as u2 E2.
  inv_bind H as rewards' Er. inv_bind H as dones' Ed.
  eauto.
Qed.

Lemma train_inv s r states actions next_states rewards dones weights td log s' r' :
  train s r states actions next_states rewards dones weights = Ok (td, log, s', r') ->
  exists w out,
    _train_body s r states actions next_states rewards dones w = Ok (out, s', r').
Proof.
  unfold train. intros H.
  inv_bind H as x E. destruct x as [[out s1] r1].
  destruct out as [[[[[[a1 a2] a3] a4] a5] a6] a7].
  inv_bind H as log2 E2. injection H as <- <- <- <-.
  eauto.
Qed.

(** What a training step leaves as it is, and what it does to [alpha]. *)
Lemma train_body_frame
    s r states actions next_states rewards dones weights out s' r' :
  _train_body s r states actions next_states rewards dones weights = Ok (out, s', r') ->
  (auto_alpha s' = auto_alpha s /\ target_alpha s' = target_alpha s /\
   state_ndim s' = state_ndim s /\ discount s' = discount s /\
   policy_name s' = policy_name s /\ vf_target s' = vf_target s /\
   tau s' = tau s) /\
  (auto_alpha s = false ->
   alpha s' = alpha s /\ log_alpha s' = log_alpha s /\
   alpha_optimizer s' = alpha_optimizer s) /\
  (auto_alpha s = true ->
   exists la, log_alpha s' = Some la /\ alpha s' = tf_exp la /\
              exists o, alpha_optimizer s' = Some o).
Proof.
  intros H.
  apply train_body_inv in H. destruct H as (rw & dn & _ & _ & H).
  apply train_steps_inv in H. cbv zeta in H. destruct H as (tape & _ & _ & H).
  match type of H with
  | alpha_step _ (actor_step _ (target_step (critic_step _ ?b)) _) _ _ = _ =>
      destruct (steps_frame s b)
        as ((Fa & Fla & Fal & Fta & Fo) & (F1 & F2 & F3 & F4 & F5) & _)
  end.
  destruct (alpha_step_inv _ _ _ _ _ H)
    as (_ & (G1 & G2 & G3 & G4 & G5) & (Ga & Gta) & Hoff & Hon).
  split.
  { repeat split; congruence. }
  split.
  - intros Ha. rewrite <- Fa in Ha. rewrite (Hoff Ha). auto.
  - intros Ha. rewrite <- Fa in Ha. exact (Hon Ha).
Qed.

Lemma train_frame s r states actions next_states rewards dones weights td log s' r' :
  train s r states actions next_states rewards dones weights = Ok (td, log, s', r') ->
  (auto_alpha s' = auto_alpha s /\ target_alpha s' = target_alpha s /\
   state_ndim s' = state_ndim s /\ discount s' = discount s /\
   policy_name s' = policy_name s /\ vf_target s' = vf_target s /\
   tau s' = tau s) /\
  (auto_alpha s = false ->
   alpha s' = alpha s /\ log_alpha s' = log_alpha s /\
   alpha_optimizer s' = alpha_optimizer s) /\
  (auto_alpha s = true ->
   exists la, log_alpha s' = Some la /\ alpha s' = tf_exp la /\
              exists o, alpha_optimizer s' = Some o).
Proof.
  intros H. apply train_inv in H. destruct H as (w & out & H).
  exact (train_body_frame _ _ _ _ _ _ _ _ _ _ _ H).
Qed.

Lemma init_tuned a n : tuned (__init__ a n).
Proof.
  unfold tuned, __init__. simpl. intros ->. repeat split; eauto.
Qed.

Lemma reachable_invariant a n s :
  reachable a n s ->
  auto_alpha s = Args.auto_alpha a /\
  (Args.auto_alpha a = true ->
   target_alpha s = Some (- Z.of_nat (Args.action_dim a))%Z) /\
  (Args.auto_alpha a = false -> alpha s = Args.alpha a) /\
  state_ndim s = length (Args.state_shape a) /\
  vf_target s = None /\
  tuned s.
Proof.
  induction 1 as [|s r st ac ns rw dn w td log s' r' Hreach IH Htrain].
  - split; [reflexivity |].
    split; [unfold __init__; simpl; intros ->; reflexivity |].
    split; [unfold __init__; simpl; intros ->; reflexivity |].
    split; [reflexivity |]. split; [reflexivity |]. apply init_tuned.
  - destruct IH as (Ia & Ita & Ial & Ind & Ivf & Itu).
    destruct (train_frame _ _ _ _ _ _ _ _ _ _ _ _ Htrain)
      as ((Fa & Fta & Fnd & _ & _ & Fvf & _) & Hoff & Hon).
    split; [congruence |].
    split; [intros Ha; rewrite Fta; auto |].
    split; [intros Ha; destruct Hoff as (-> & _); [congruence | auto] |].
    split; [congruence |]. split; [congruence |].
    intros Ha. rewrite Fa in Ha. destruct (Hon Ha) as (la & Hla & _ & o & Ho).
    destruct (Itu Ha) as (_ & (ta & Hta) & _).
    split; [eauto |]. split; [| eauto]. exists ta. congruence.
Qed.


(** *** The entropy temperature *)

(** C8.  When the constructor is given [auto_alpha], every agent that
    it and training steps produce holds [target_alpha = -action_dim].
    In a training step of an agent with [auto_alpha], the temperature
    loss is [-mean(log_alpha * (logp' + target_alpha))], in which
    [logp' + target_alpha] is held at its current value whatever values
    the variables under differentiation take, and after the step
    [alpha] is [exp(log_alpha)] for the [log_alpha] that the step has
    assigned. *)
Theorem temperature_tuning :
  (forall a n s,
      reachable a n s -> Args.auto_alpha a = true ->
      auto_alpha s = true /\
      target_alpha s = Some (- Z.of_nat (Args.action_dim a))%Z) /\
  (forall s r states actions next_states rewards dones weights n e la ta,
      shape rewards = [n; 1] -> shape dones = [n; 1] -> tuned s ->
      evaluates s r states actions next_states n e ->
      auto_alpha s = true -> log_alpha s = Some la -> target_alpha s = Some ta ->
      let block v :=
        gradient_tape v s r states actions next_states
          (squeezed n rewards) (not_dones_of (squeezed n dones)) in
      exists tape l s' r' la',
        block s = Ok (tape, r') /\
        _train_body s r states actions next_states rewards dones weights
        = Ok (returned tape, s', r') /\
        alpha_loss tape = Some l /\
        value l = temperature_loss la ta (value (logp tape)) /\
        (forall v t rv la_v,
            block v = Ok (t, rv) ->
            auto_alpha v = true -> log_alpha v = Some la_v ->
            target_alpha v = Some ta ->
            exists lv, alpha_loss t = Some lv /\
                       live lv = temperature_loss la_v ta (value (logp tape))) /\
        log_alpha s' = Some la' /\ alpha s' = tf_exp la' /\
        target_alpha s' = Some ta).
Proof.
  split.
  - intros a n s Hr Ha.
    destruct (reachable_invariant a n s Hr) as (Ia & Ita & _).
    split; [congruence | auto].
  - intros s r states actions next_states rewards dones weights n e la ta
           Sr Sd Ht He Ha Hla Hta block.
    destruct (train_body_run _ _ _ _ _ _ _ weights _ _ Sr Sd He Ht) as (s' & Hs' & Hrun).
    fold block in Hs'.
    destruct (steps_frame s block) as ((Fa & _ & _ & Fta & _) & _).
    destruct (alpha_step_inv _ _ _ _ _ Hs') as (_ & _ & (_ & Gta) & _ & Hon).
    rewrite Fa in Hon. destruct (Hon Ha) as (la' & Hla' & Hal' & _).
    exists (tape_of s e (squeezed n rewards) (not_dones_of (squeezed n dones))).
    exists (constant (temperature_loss la ta (e_logp e))), s', (e_rng2 e), la'.
    split; [exact (gradient_tape_run _ _ _ _ _ (squeezed n rewards)
                    (not_dones_of (squeezed n dones)) _ _ He eq_refl eq_refl Ht) |].
    split; [exact Hrun |].
    split; [simpl; rewrite Ha, Hla, Hta; reflexivity |].
    split; [reflexivity |].
    split.
    { intros v t rv la_v Hv Hav Hlv Htv.
      destruct (gradient_tape_varied _ _ _ _ _ _ (squeezed n rewards)
                  (not_dones_of (squeezed n dones)) _ _ _ _ He eq_refl eq_refl Hv)
        as (_ & _ & _ & H4).
      exact (H4 la_v ta Hav Hlv Htv). }
    split; [exact Hla' |]. split; [exact Hal' |]. congruence.
Qed.

(** C9.  Without [auto_alpha], a training step ([_train_body], and
    [train] with it) that returns leaves [alpha] at the value it had,
    and every agent that the constructor and training steps produce
    holds the [alpha] that the constructor was given. *)
Theorem fixed_alpha_is_kept :
  (forall s r states actions next_states rewards dones weights out s' r',
      auto_alpha s = false ->
      _train_body s r states actions next_states rewards dones weights
      = Ok (out, s', r') ->
      alpha s' = alpha s /\ auto_alpha s' = false) /\
  (forall s r states actions next_states rewards dones weights td log s' r',
      auto_alpha s = false ->
      train s r states actions next_states rewards dones weights
      = Ok (td, log, s', r') ->
      alpha s' = alpha s /\ auto_alpha s' = false) /\
  (forall a n s,
      reachable a n s -> Args.auto_alpha a = false -> alpha s = Args.alpha a).
Proof.
  split; [| split].
  - intros s r st ac ns rw dn w out s' r' Ha H.
    destruct (train_body_frame _ _ _ _ _ _ _ _ _ _ _ H) as ((Fa & _) & Hoff & _).
    destruct (Hoff Ha) as (-> & _). split; congruence.
  - intros s r st ac ns rw dn w td log s' r' Ha H.
    destruct (train_frame _ _ _ _ _ _ _ _ _ _ _ _ H) as ((Fa & _) & Hoff & _).
    destruct (Hoff Ha) as (-> & _). split; congruence.
  - intros a n s Hr Ha.
    destruct (reachable_invariant a n s Hr) as (_ & _ & Ial & _). auto.
Qed.

(** *** The importance weights *)

(** C10.  [weights] has no effect: two calls of [train] on the same
    agent, the same state of the random generator and the same
    [states], [actions], [next_states], [rewards] and [dones] have the
    same outcome (the same TD errors, the same logged scalars, the same
    agent and generator afterwards, or the same error) whatever the two
    values of [weights], absent or not. *)
Theorem weights_are_not_used s r states actions next_states rewards dones :
  (forall w1 w2 : tensor,
      _train_body s r states actions next_states rewards dones w1
      = _train_body s r states actions next_states rewards dones w2) /\
  (forall w1 w2 : option tensor,
      train s r states actions next_states rewards dones w1
      = train s r states actions next_states rewards dones w2).
Proof.
  assert (Hbody : forall w1 w2 : tensor,
             _train_body s r states actions next_states rewards dones w1
             = _train_body s r states actions next_states rewards dones w2).
  { intros w1 w2. unfold _train_body. reflexivity. }
  split; [exact Hbody |].
  intros w1 w2. unfold train.
  rewrite (Hbody (match w1 with None => ones_like rewards | Some w => w end)
             (match w2 with None => ones_like rewards | Some w => w end)).
  reflexivity.
Qed.

(** *** The TD-error query *)

(** C4.  What the code does instead of the claim: on every agent that
    the constructor and training steps produce, and on every input,
    [compute_td_error] returns no TD error; once the live critic [qf1]
    has been evaluated, its body raises [AttributeError] on
    [vf_target], an attribute that nothing sets. *)
Theorem td_error_query_raises a n s :
  reachable a n s ->
  forall is_tf_tensor states actions next_states rewards dones,
    (forall td,
        compute_td_error s is_tf_tensor states actions next_states rewards dones
        <> Ok td) /\
    (forall q,
        CriticQ_call (qf1 s) states actions = Ok q ->
        _compute_td_error_body s states actions next_states rewards dones
        = Raise (AttributeError "vf_target")).
Proof.
  intros Hr is_tf st ac ns rw dn.
  destruct (reachable_invariant a n s Hr) as (_ & _ & _ & _ & Hvf & _).
  assert (Hbody : forall rw' dn' td,
             _compute_td_error_body s st ac ns rw' dn' <> Ok td).
  { intros rw' dn' td H. unfold _compute_td_error_body in H. rewrite Hvf in H.
    destruct (CriticQ_call (qf1 s) st ac); discriminate. }
  split.
  - intros td H. unfold compute_td_error in H.
    inv_bind H as p Ep. destruct p as [rw' dn'].
    inv_bind H as td' Etd. exact (Hbody _ _ _ Etd).
  - intros q Hq. unfold _compute_td_error_body. rewrite Hq, Hvf. reflexivity.
Qed.

(** *** The inputs of a critic *)

Lemma shape_eqb_neq a b : a <> b -> shape_eqb a b = false.
Proof.
  intros H. unfold shape_eqb. destruct (list_eq_dec Nat.eq_dec a b); congruence.
Qed.

Lemma concat_axis1_rejects x y :
  length (shape x) < 2 \/ length (shape x) <> length (shape y) \/
  hd 0 (shape x) <> hd 0 (shape y) ->
  concat_axis1 x y = Raise ShapeError.
Proof.
  unfold concat_axis1.
  destruct (shape x) as [|b [|n r]]; simpl; try reflexivity.
  destruct (shape y) as [|b' [|m r']]; simpl; try reflexivity.
  intros [H|[H|H]]; [lia | |].
  - rewrite (shape_eqb_neq r r'), andb_false_r; [reflexivity |].
    intros ->. apply H. reflexivity.
  - apply Nat.eqb_neq in H. rewrite H. reflexivity.
Qed.

(** X1.  A critic concatenates the states and the actions along axis 1
    before it calls any layer: on states of rank less than 2, on states
    and actions of different ranks, or of different batch sizes, the
    call raises a shape error whatever the layers are; and so does a
    training step on such states and actions, once its assertions and
    squeezes have passed. *)
Theorem critic_rejects_mismatched_inputs m states actions :
  length (shape states) < 2 \/ length (shape states) <> length (shape actions) \/
  hd 0 (shape states) <> hd 0 (shape actions) ->
  CriticQ_call m states actions = Raise ShapeError /\
  (forall s r next_states rewards dones weights k n,
      shape rewards = [k; 1] -> shape dones = [n; 1] ->
      _train_body s r states actions next_states rewards dones weights
      = Raise ShapeError).
Proof.
  intros H.
  assert (Hcall : forall q, CriticQ_call q states actions = Raise ShapeError).
  { intros q. unfold CriticQ_call. rewrite (concat_axis1_rejects _ _ H). reflexivity. }
  split; [apply Hcall |].
  intros s r next_states rewards dones weights k n Sr Sd.
  unfold _train_body. rewrite (squeeze_column _ _ Sr), (squeeze_column _ _ Sd).
  rewrite Sr, Sd. cbn [length Nat.eqb assert bind].
  unfold train_steps, gradient_tape, tape_critic, constant. cbn [live frozen].
  rewrite Hcall. reflexivity.
Qed.

Lemma firstn_repeat {A} (x : A) n : firstn n (repeat x n) = repeat x n.
Proof. rewrite <- (repeat_length x n) at 1. apply firstn_all. Qed.

(** X2.  The constructor of a critic calls the model on a state of
    zeros of shape [(1,) + state_shape] and an action of zeros of shape
    [(1, action_dim)].  Unless [state_shape] has exactly one dimension,
    that call raises a shape error, whatever the layers are; with
    [state_shape = (k,)] the layers receive one row of [k + action_dim]
    zeros. *)
Theorem constructor_needs_flat_states m state_shape action_dim :
  (length state_shape <> 1 ->
   CriticQ_dummy_call m state_shape action_dim = Raise ShapeError) /\
  (forall k, state_shape = [k] ->
     concat_axis1 (dummy_state state_shape) (dummy_action action_dim)
     = Ok (zeros [1; k + action_dim])).
Proof.
  split.
  - intros H. unfold CriticQ_dummy_call, CriticQ_call.
    rewrite concat_axis1_rejects; [reflexivity |].
    right. left. simpl. lia.
  - intros k ->. unfold concat_axis1, dummy_state, dummy_action, zeros, chunks. simpl.
    rewrite !Nat.mul_1_r, !Nat.add_0_r, !firstn_repeat, app_nil_r, <- repeat_app.
    reflexivity.
Qed.

(** *** The weights that the constructor leaves *)

Lemma assign_layers_read_back :
  assignment_is_read_back ->
  forall ls ws,
    length (flat_map layer_weights ls) <= length ws ->
    flat_map layer_weights (fst (assign_layers ls ws))
    = firstn (length (flat_map layer_weights ls)) ws /\
    snd (assign_layers ls ws) = skipn (length (flat_map layer_weights ls)) ws.
Proof.
  intros Hrb. induction ls as [|l ls IH]; intros ws Hlen; simpl in *.
  - auto.
  - rewrite length_app in Hlen |- *.
    destruct (IH (skipn (length (layer_weights l)) ws)) as (IH1 & IH2).
    { rewrite length_skipn. lia. }
    destruct (assign_layers ls (skipn (length (layer_weights l)) ws)) as [ls' rest].
    simpl in *. rewrite IH1, IH2, Hrb.
    + rewrite skipn_skipn, (Nat.add_comm (length (flat_map layer_weights ls))).
      split; [| reflexivity].
      rewrite <- (firstn_skipn (length (layer_weights l))
                    (firstn (length (layer_weights l)
                             + length (flat_map layer_weights ls)) ws)).
      rewrite firstn_firstn, Nat.min_l by lia.
      f_equal. rewrite skipn_firstn_comm. f_equal. lia.
    + rewrite length_firstn. lia.
Qed.

Lemma CriticQ_assign_read_back m ws :
  assignment_is_read_back ->
  length ws = length (CriticQ_weights m) ->
  CriticQ_weights (CriticQ_assign m ws) = ws.
Proof.
  intros Hrb Hlen. unfold CriticQ_weights in Hlen. rewrite length_app in Hlen.
  destruct (assign_layers_read_back Hrb (base_layers m) ws) as (H1 & H2); [lia |].
  unfold CriticQ_assign, CriticQ_weights.
  destruct (assign_layers (base_layers m) ws) as [bl rest]. simpl in *.
  rewrite H1, H2, Hrb.
  - apply firstn_skipn.
  - rewrite length_skipn. lia.
Qed.

(** X3.  The constructor passes the weights of the live critics as the
    variables to assign and those of the target critics as their
    source: when [update_target_variables] with [tau=1.] returns the
    source, and the critics of a pair own as many variables, the live
    critics [qf1], [qf2] leave the constructor holding the weights of
    the target critics, and the target critics hold the weights they
    were constructed with. *)
Theorem constructor_copies_the_target_critics a n :
  assignment_is_read_back ->
  length (CriticQ_weights (new_qf1_target n)) = length (CriticQ_weights (new_qf1 n)) ->
  length (CriticQ_weights (new_qf2_target n)) = length (CriticQ_weights (new_qf2 n)) ->
  update_target_variables (CriticQ_weights (new_qf1 n))
    (CriticQ_weights (new_qf1_target n)) F32.one
  = CriticQ_weights (new_qf1_target n) ->
  update_target_variables (CriticQ_weights (new_qf2 n))
    (CriticQ_weights (new_qf2_target n)) F32.one
  = CriticQ_weights (new_qf2_target n) ->
  CriticQ_weights (qf1 (__init__ a n)) = CriticQ_weights (qf1_target (__init__ a n)) /\
  CriticQ_weights (qf2 (__init__ a n)) = CriticQ_weights (qf2_target (__init__ a n)) /\
  qf1_target (__init__ a n) = new_qf1_target n /\
  qf2_target (__init__ a n) = new_qf2_target n.
Proof.
  intros Hrb L1 L2 U1 U2. unfold __init__. simpl.
  rewrite U1, U2.
  split; [apply CriticQ_assign_read_back; assumption |].
  split; [apply CriticQ_assign_read_back; assumption |].
  split; reflexivity.
Qed.

(** *** The log-probability query *)

(** X4.  [get_logp] is the second component of [get_action] without
    [test]: on a state on which [get_action(state, test=False)]
    returns, from the same state of the random generator, [get_logp]
    returns the log-probability that [get_action] returns, for a single
    observation and for a batch alike. *)
Theorem get_logp_agrees_with_get_action s r state action logp r' :
  get_action s r state false = Ok (action, logp, r') ->
  get_logp s r state = Ok (logp, r').
Proof.
  unfold get_action, get_logp, _get_action_body, _get_logp_body.
  destruct (length (shape state) =? state_ndim s); intros H.
  - inv_bind H as x E. destruct x as [[acts lps] r1]. rewrite E. simpl.
    inv_bind H as a Ea. inv_bind H as l El. injection H as <- <- <-.
    rewrite El. reflexivity.
  - inv_bind H as x E. destruct x as [[acts lps] r1]. rewrite E. simpl.
    injection H as <- <- <-. reflexivity.
Qed.

(** *** What [train] adds to [_train_body] *)

Lemma gradient_tape_alpha_loss v c r states actions next_states rewards not_dones t r' :
  gradient_tape v c r states actions next_states rewards not_dones = Ok (t, r') ->
  auto_alpha v = true ->
  (exists l, alpha_loss t = Some l) /\ (exists ta, target_alpha v = Some ta).
Proof.
  intros H Ha. unfold gradient_tape in H.
  inv_bind H as cq1 Ecq1. inv_bind H as cq2 Ecq2.
  inv_bind H as sn Esn. destruct sn as [[sna nlp] r1].
  inv_bind H as nq1 Enq1. inv_bind H as nq2 Enq2.
  inv_bind H as nmin Enmin. inv_bind H as soft Esoft.
  inv_bind H as boot Eboot. inv_bind H as tq Etq.
  inv_bind H as err1 Eerr1. inv_bind H as err2 Eerr2.
  inv_bind H as sp Esp. destruct sp as [[sa lp] r2].
  inv_bind H as q1p Eq1p. inv_bind H as q2p Eq2p.
  inv_bind H as pmin Epmin. inv_bind H as gap Egap.
  inv_bind H as al Eal.
  injection H as <- <-. simpl.
  rewrite Ha in Eal.
  inv_bind Eal as lav Elav. inv_bind Eal as lac Elac. inv_bind Eal as ta Eta.
  injection Eal as <-. split; [eauto |].
  destruct (target_alpha v); [eauto | discriminate].
Qed.

Lemma train_body_target_alpha
    s r states actions next_states rewards dones weights out s' r' :
  _train_body s r states actions next_states rewards dones weights = Ok (out, s', r') ->
  auto_alpha s = true -> exists ta, target_alpha s = Some ta.
Proof.
  intros H Ha.
  apply train_body_inv in H. destruct H as (rw & dn & _ & _ & H).
  apply train_steps_inv in H. cbv zeta in H. destruct H as (tape & Hb & _).
  exact (proj2 (gradient_tape_alpha_loss _ _ _ _ _ _ _ _ _ _ Hb Ha)).
Qed.

Lemma train_after_body
    s r states actions next_states rewards dones weights
    td actor_loss qf1_ qf1_loss logp_min logp_max logp_mean s' r' :
  _train_body s r states actions next_states rewards dones
    (match weights with None => ones_like rewards | Some w => w end)
  = Ok ((td, actor_loss, qf1_, qf1_loss, logp_min, logp_max, logp_mean), s', r') ->
  exists log,
    train s r states actions next_states rewards dones weights = Ok (td, log, s', r').
Proof.
  intros E. unfold train. rewrite E. simpl.
  destruct (train_body_frame _ _ _ _ _ _ _ _ _ _ _ E) as ((Fa & Fta & _) & _ & Hon).
  rewrite Fa. destruct (auto_alpha s) eqn:Ea.
  - destruct (Hon eq_refl) as (la & Hla & _).
    destruct (train_body_target_alpha _ _ _ _ _ _ _ _ _ _ _ E Ea) as (ta & Hta).
    rewrite Hla, Fta, Hta. simpl. eauto.
  - simpl. eauto.
Qed.

(** X5.  [train] raises what [_train_body] raises and nothing else:
    when [_train_body] returns, the attributes [log_alpha] and
    [target_alpha] that [train] reads for its summaries are there,
    on every agent, since the body has read them before. *)
Theorem train_raises_what_its_body_raises
    s r states actions next_states rewards dones weights e :
  train s r states actions next_states rewards dones weights = Raise e <->
  _train_body s r states actions next_states rewards dones
    (match weights with None => ones_like rewards | Some w => w end) = Raise e.
Proof.
  destruct (_train_body s r states actions next_states rewards dones
              (match weights with None => ones_like rewards | Some w => w end))
    as [[[out s'] r']|e'] eqn:E.
  - destruct out as [[[[[[a1 a2] a3] a4] a5] a6] a7].
    destruct (train_after_body _ _ _ _ _ _ _ _ _ _ _ _ _ _ _ _ _ E) as (log & ->).
    split; discriminate.
  - unfold train. rewrite E. simpl.
    split; intros H; injection H as ->; reflexivity.
Qed.

(** X6.  What [train] returns and writes: the TD errors are the first
    component of what [_train_body] returns; the first six scalars are
    the actor loss, the mean of the Q1 values, the Q1 loss and the
    minimum, maximum and mean of the log-probabilities, under the name
    of the policy; then, without [auto_alpha], the one scalar [/ent] is
    the [alpha] of the agent, unchanged; with [auto_alpha], [/log_ent]
    is the [log_alpha] that the step has just assigned, [/ent] is its
    exponential, and [/logp_mean+target] is the mean log-probability
    plus [target_alpha]. *)
Theorem train_logs_the_updated_temperature
    s r states actions next_states rewards dones weights td log s' r' :
  train s r states actions next_states rewards dones weights = Ok (td, log, s', r') ->
  exists actor_loss qf1_ qf1_loss logp_min logp_max logp_mean,
    _train_body s r states actions next_states rewards dones
      (match weights with None => ones_like rewards | Some w => w end)
    = Ok ((td, actor_loss, qf1_, qf1_loss, logp_min, logp_max, logp_mean), s', r') /\
    firstn 6 log
    = [ (policy_name s ++ "/actor_loss", actor_loss);
        (policy_name s ++ "/critic_Q1_value", np_mean qf1_);
        (policy_name s ++ "/critic_Q1_loss", qf1_loss);
        (policy_name s ++ "/logp_min", logp_min);
        (policy_name s ++ "/logp_max", logp_max);
        (policy_name s ++ "/logp_mean", logp_mean) ]%string /\
    (auto_alpha s = false ->
     skipn 6 log = [ (policy_name s ++ "/ent", alpha s) ]%string) /\
    (auto_alpha s = true ->
     exists la' ta,
       log_alpha s' = Some la' /\ target_alpha s = Some ta /\
       skipn 6 log
       = [ (policy_name s ++ "/log_ent", la');
           (policy_name s ++ "/logp_mean+target", F32.add logp_mean (F32.of_Z ta));
           (policy_name s ++ "/ent", tf_exp la') ]%string).
Proof.
  unfold train. intros H.
  inv_bind H as x E. destruct x as [[out s1] r1].
  destruct out as [[[[[[a1 a2] a3] a4] a5] a6] a7].
  inv_bind H as log2 E2. injection H as <- <- <- <-.
  exists a2, a3, a4, a5, a6, a7. split; [exact E |].
  destruct (train_body_frame _ _ _ _ _ _ _ _ _ _ _ E)
    as ((Fa & Fta & _ & _ & Fn & _) & Hoff & Hon).
  rewrite Fn. split; [reflexivity |].
  rewrite Fa, ?Fn in E2. split.
  - intros Ha. rewrite Ha in E2. injection E2 as <-.
    destruct (Hoff Ha) as (-> & _). reflexivity.
  - intros Ha. rewrite Ha in E2.
    inv_bind E2 as la Ela. inv_bind E2 as ta Eta. injection E2 as <-.
    destruct (Hon Ha) as (la' & Hla' & Hal & _).
    rewrite Hla' in Ela. injection Ela as <-.
    rewrite Fta in Eta.
    exists la', ta. split; [exact Hla' |].
    split; [destruct (target_alpha s); [injection Eta as ->; reflexivity | discriminate] |].
    simpl. rewrite Hal. reflexivity.
Qed.

(** X7.  What [train] returns under the name [td_errors] is the
    first component of what [_train_body] returns, and that is
    [target_q]: on a batch of [n] transitions [train] returns the
    regression target [rewards + (1 - dones) * discount *
    soft_next_value] itself, not its difference with [current_q1]. *)
Theorem train_returns_the_target
    s r states actions next_states rewards dones weights n e :
  shape rewards = [n; 1] -> shape dones = [n; 1] -> tuned s ->
  evaluates s r states actions next_states n e ->
  exists log s' r',
    train s r states actions next_states rewards dones weights
    = Ok (regression_target (discount s) (squeezed n rewards)
            (not_dones_of (squeezed n dones))
            (soft_next_value (alpha s) (e_q1_target e) (e_q2_target e)
               (e_next_logp e)),
          log, s', r').
Proof.
  intros Sr Sd Ht He.
  destruct (train_body_run _ _ _ _ _ _ _
              (match weights with None => ones_like rewards | Some w => w end)
              _ _ Sr Sd He Ht) as (s' & _ & Hrun).
  cbv zeta in Hrun. unfold returned in Hrun.
  destruct (train_after_body _ _ _ _ _ _ _ _ _ _ _ _ _ _ _ _ _ Hrun) as (log & Hlog).
  exists log, s', (e_rng2 e). exact Hlog.
Qed.

(** *** The two gradient steps *)

(** X8.  Both gradient steps of a training step start from the agent
    that the tape has recorded: the actor and its optimizer after the
    step are those that the actor step alone gives on the agent as it
    was, whatever the critic step and the soft update did before it,
    and the critics and their optimizer are those of the critic step
    alone. *)
Theorem gradient_steps_start_from_the_recorded_agent
    s r states actions next_states rewards dones weights out s' r' :
  _train_body s r states actions next_states rewards dones weights = Ok (out, s', r') ->
  exists rewards' dones',
    squeeze_axis1 rewards = Ok rewards' /\ squeeze_axis1 dones = Ok dones' /\
    let block v :=
      gradient_tape v s r states actions next_states rewards' (not_dones_of dones') in
    actor s' = actor (actor_step s s block) /\
    actor_optimizer s' = actor_optimizer (actor_step s s block) /\
    qf1 s' = qf1 (critic_step s block) /\
    qf2 s' = qf2 (critic_step s block) /\
    qf_optimizer s' = qf_optimizer (critic_step s block).
Proof.
  intros H.
  apply train_body_inv in H. destruct H as (rw & dn & Er & Ed & H).
  exists rw, dn. split; [exact Er |]. split; [exact Ed |].
  apply train_steps_inv in H. cbv zeta in H |- *. destruct H as (tape & _ & _ & H).
  destruct (alpha_step_inv _ _ _ _ _ H) as ((A1 & A2 & A3 & A4 & A5 & _) & _).
  rewrite A1, A2, A3, A4, A5.
  unfold actor_step, target_step, critic_step.
  destruct (apply_gradients (qf_optimizer s) _) as [o1 w1]. simpl.
  destruct (apply_gradients (actor_optimizer s) _) as [o2 w2]. simpl.
  repeat split; reflexivity.
Qed.

(** *** The attributes of the agents that training reaches *)

(** X9.  Training never touches the hyper-parameters: every agent that
    the constructor and training steps produce holds the [tau], the
    [discount], the name, the [auto_alpha] flag that the constructor
    was given, and [state_ndim] is the rank of its [state_shape]. *)
Theorem hyper_parameters_are_those_of_the_constructor a n s :
  reachable a n s ->
  tau s = Args.tau a /\ discount s = Args.discount a /\
  policy_name s = Args.name a /\ state_ndim s = length (Args.state_shape a) /\
  auto_alpha s = Args.auto_alpha a.
Proof.
  induction 1 as [|s r st ac ns rw dn w td log s' r' Hreach IH Htrain].
  - repeat split; reflexivity.
  - destruct IH as (I1 & I2 & I3 & I4 & I5).
    destruct (train_frame _ _ _ _ _ _ _ _ _ _ _ _ Htrain)
      as ((Fa & _ & Fnd & Fd & Fn & _ & Ft) & _).
    repeat split; congruence.
Qed.

(** X10.  The attributes of the temperature: with [auto_alpha], every
    agent that the constructor and training steps produce holds a
    [log_alpha] and an [alpha_optimizer], and its [alpha] is
    [exp(log_alpha)] (from the constructor on); without [auto_alpha],
    none of [log_alpha], [target_alpha] and [alpha_optimizer] is ever
    set. *)
Theorem temperature_attributes a n s :
  reachable a n s ->
  (Args.auto_alpha a = true ->
   exists la o, log_alpha s = Some la /\ alpha s = tf_exp la /\
                alpha_optimizer s = Some o) /\
  (Args.auto_alpha a = false ->
   log_alpha s = None /\ target_alpha s = None /\ alpha_optimizer s = None).
Proof.
  induction 1 as [|s r st ac ns rw dn w td log s' r' Hreach IH Htrain].
  - unfold __init__. simpl. split; intros ->; eauto.
  - destruct (reachable_invariant a n s Hreach) as (Ia & _).
    destruct IH as (IHon & IHoff).
    destruct (train_frame _ _ _ _ _ _ _ _ _ _ _ _ Htrain)
      as ((Fa & Fta & _) & Hoff & Hon).
    split; intros Ha.
    + rewrite <- Ia in Ha. destruct (Hon Ha) as (la & Hla & Hal & o & Ho). eauto.
    + destruct (IHoff Ha) as (I1 & I2 & I3).
      rewrite <- Ia in Ha. destruct (Hoff Ha) as (_ & H1 & H2).
      repeat split; congruence.
Qed.

(** *** Batches of different sizes *)

Lemma tf_binop_mismatch f x y a b :
  shape x = [a] -> shape y = [b] -> a <> b -> a <> 1 -> b <> 1 ->
  tf_binop f x y = Raise ShapeError.
Proof.
  intros Sx Sy Hab Ha Hb. unfold tf_binop. rewrite Sx, Sy.
  rewrite shape_eqb_neq by congruence.
  unfold broadcast_shape. simpl.
  apply Nat.eqb_neq in Hab, Ha, Hb. rewrite Hab, Ha, Hb. reflexivity.
Qed.

Lemma train_steps_mismatch s r states actions next_states rewards dones n e :
  evaluates s r states actions next_states n e ->
  (exists m, shape dones = [m] /\ m <> n /\ m <> 1 /\ n <> 1) \/
  (shape dones = [n] /\ exists k, shape rewards = [k] /\ k <> n /\ k <> 1 /\ n <> 1) ->
  train_steps s r states actions next_states rewards dones = Raise ShapeError.
Proof.
  intros (H1 & S1 & H2 & S2 & H3 & S3 & H4 & S4 & H5 & S5 & _) H.
  unfold train_steps, gradient_tape, tape_critic, tape_actor, constant, cast_float32.
  simpl.
  rewrite H1; simpl. rewrite H2; simpl. rewrite H3; simpl.
  rewrite H4; simpl. rewrite H5; simpl.
  rewrite d_binop_same by (simpl; congruence). simpl.
  rewrite d_binop_same by (simpl; congruence). simpl.
  destruct H as [(m & Sd & Hmn & Hm & Hn) | (Sd & k & Sr & Hkn & Hk & Hn)].
  - unfold d_binop. simpl.
    rewrite (tf_binop_mismatch F32.mul _ _ m n) by (simpl; congruence || assumption).
    reflexivity.
  - rewrite d_binop_same by (simpl; congruence). simpl.
    unfold d_binop. simpl.
    rewrite (tf_binop_mismatch F32.add _ _ k n) by (simpl; congruence || assumption).
    reflexivity.
Qed.

(** X11.  Nothing in the training step compares the batch sizes of its
    arguments; a mismatch is found by the arithmetic of the target.  On
    a batch on which the networks return [n] values, [n <> 1], [dones]
    of shape [(m, 1)] with [m] neither [n] nor 1 raises a shape error
    (in [not_dones * discount * soft_next_q]), and so do [dones] of
    shape [(n, 1)] with [rewards] of shape [(k, 1)], [k] neither [n]
    nor 1 (in the sum with the rewards); no assertion fails. *)
Theorem batch_size_mismatch_is_rejected
    s r states actions next_states rewards dones weights n k m e :
  shape rewards = [k; 1] -> shape dones = [m; 1] ->
  evaluates s r states actions next_states n e ->
  n <> 1 ->
  (m <> n /\ m <> 1) \/ (m = n /\ k <> n /\ k <> 1) ->
  _train_body s r states actions next_states rewards dones weights = Raise ShapeError.
Proof.
  intros Sr Sd He Hn H.
  unfold _train_body. rewrite (squeeze_column _ _ Sr), (squeeze_column _ _ Sd).
  rewrite Sr, Sd. cbn [length Nat.eqb assert bind].
  apply (train_steps_mismatch _ _ _ _ _ _ _ n e He).
  destruct H as [(Hmn & Hm) | (-> & Hkn & Hk)].
  - left. exists m. auto.
  - right. split; [reflexivity |]. exists k. auto.
Qed.

Lemma skipn_S_tl {A} : forall i (d : list A), skipn (S i) d = tl (skipn i d).
Proof.
  induction i as [|i IH]; intros [|x d]; try reflexivity.
  rewrite skipn_cons, IH. reflexivity.
Qed.

Lemma concat_singletons {A} (d : list A) : forall n i,
  concat (map (fun j => firstn 1 (skipn (j * 1) d)) (seq i n)) = firstn n (skipn i d).
Proof.
  induction n as [|n IH]; intros i; simpl; [reflexivity |].
  rewrite IH, Nat.mul_1_r, skipn_S_tl.
  destruct (skipn i d) as [|x t]; simpl; [now rewrite firstn_nil | reflexivity].
Qed.

Lemma broadcast_vector {A} (d : list A) n :
  length d = n -> broadcast_to [n] [n] d = d.
Proof.
  intros H. cbn [broadcast_to]. rewrite Nat.eqb_refl. unfold chunks, numel.
  cbn [fold_right]. rewrite map_map. rewrite (concat_singletons d n 0). simpl.
  rewrite <- H. apply firstn_all.
Qed.

Lemma zip_with_repeat {A A' C} (f : A -> A' -> C) a : forall l,
  zip_with f (repeat a (length l)) l = map (f a) l.
Proof. induction l as [|x l IH]; simpl; congruence. Qed.

Lemma concat_repeat_singleton {A} (a : A) n : concat (repeat [a] n) = repeat a n.
Proof. induction n as [|n IH]; simpl; congruence. Qed.

(** A tensor of shape [(1,)] against one of shape [(n,)]. *)
Lemma tf_binop_one f x y a n :
  shape x = [1] -> data x = [a] -> shape y = [n] -> length (data y) = n ->
  tf_binop f x y = Ok {| shape := [n]; data := map (f a) (data y) |}.
Proof.
  intros Sx Dx Sy Ly. unfold tf_binop. rewrite Sx, Sy, Dx.
  destruct (Nat.eq_dec n 1) as [->|Hn].
  - rewrite shape_eqb_refl. destruct (data y) as [|b [|c l]]; try discriminate.
    reflexivity.
  - rewrite shape_eqb_neq by congruence.
    unfold broadcast_shape. cbn [rev app bshape_rev].
    assert (E : (1 =? n) = false) by (apply Nat.eqb_neq; congruence).
    rewrite E. cbn [Nat.eqb option_map rev app length pad_shape Nat.sub repeat].
    rewrite broadcast_vector by assumption.
    cbn [broadcast_to]. rewrite E, concat_repeat_singleton.
    rewrite <- (zip_with_repeat f a (data y)), Ly. reflexivity.
Qed.

Lemma gradient_tape_run_with s r states actions next_states rewards not_dones n e boot :
  evaluates s r states actions next_states n e ->
  shape rewards = [n] -> tuned s ->
  tf_binop F32.mul (tf_map (fun x => F32.mul x (discount s)) not_dones)
    (soft_next_value (alpha s) (e_q1_target e) (e_q2_target e) (e_next_logp e))
  = Ok boot ->
  shape boot = [n] ->
  exists tape,
    gradient_tape s s r states actions next_states rewards not_dones
    = Ok (tape, e_rng2 e) /\
    target_q tape = constant (vzip F32.add rewards boot).
Proof.
  intros (H1 & S1 & H2 & S2 & H3 & S3 & H4 & S4 & H5 & S5 & H6 & S6 & H7 & S7 & H8 & S8)
         Sr Ht Hb Sb.
  unfold gradient_tape, tape_critic, tape_actor, constant. simpl.
  rewrite H1; simpl. rewrite H2; simpl. rewrite H3; simpl.
  rewrite H4; simpl. rewrite H5; simpl.
  rewrite d_binop_same by (simpl; congruence). simpl.
  rewrite d_binop_same by (simpl; congruence). simpl.
  unfold d_binop at 1. simpl.
  fold (soft_next_value (alpha s) (e_q1_target e) (e_q2_target e) (e_next_logp e)).
  rewrite Hb. simpl.
  rewrite d_binop_same by (simpl; congruence). simpl.
  rewrite d_binop_same by (simpl; congruence). simpl.
  rewrite d_binop_same by (simpl; congruence). simpl.
  rewrite H6; simpl. rewrite H7; simpl. rewrite H8; simpl.
  rewrite d_binop_same by (simpl; congruence). simpl.
  rewrite d_binop_same by (simpl; congruence). simpl.
  destruct (auto_alpha s) eqn:Ea.
  - destruct (Ht Ea) as ((la & Hla) & (ta & Hta) & _).
    rewrite Hla, Hta. simpl. eexists. split; reflexivity.
  - simpl. eexists. split; reflexivity.
Qed.

(** X12.  [dones] of shape [(1, 1)] with a batch of [n] transitions is
    accepted: the training step returns, and its one flag [d] is
    broadcast over the batch; every entry of the target is
    [reward + ((1 - d) * discount) * soft_next_value], with the same
    [d] for every transition. *)
Theorem one_done_flag_is_broadcast
    s r states actions next_states rewards dones weights n e d :
  shape rewards = [n; 1] -> shape dones = [1; 1] -> data dones = [d] -> tuned s ->
  evaluates s r states actions next_states n e ->
  well_formed (e_q1_target e) -> well_formed (e_q2_target e) ->
  well_formed (e_next_logp e) ->
  let soft :=
    soft_next_value (alpha s) (e_q1_target e) (e_q2_target e) (e_next_logp e) in
  exists out s' r',
    _train_body s r states actions next_states rewards dones weights
    = Ok (out, s', r') /\
    fst (fst (fst (fst (fst (fst out)))))
    = {| shape := [n];
         data := zip_with F32.add (data rewards)
                   (map (F32.mul (F32.mul (F32.sub F32.one d) (discount s)))
                      (data soft)) |}.
Proof.
  intros Sr Sd Dd Ht He W1 W2 W3 soft.
  pose proof He as (_ & _ & _ & _ & _ & S3 & _ & S4 & _ & S5 & _).
  unfold well_formed in *.
  rewrite S4 in W1. rewrite S5 in W2. rewrite S3 in W3. simpl in W1, W2, W3.
  rewrite Nat.mul_1_r in W1, W2, W3.
  assert (Ls : length (data soft) = n).
  { unfold soft, soft_next_value, vzip. simpl.
    rewrite !length_zip_with, length_map. lia. }
  assert (Ss : shape soft = [n]) by (unfold soft, soft_next_value, vzip; simpl; exact S4).
  set (boot := {| shape := [n];
                  data := map (F32.mul (F32.mul (F32.sub F32.one d) (discount s)))
                            (data soft) |}).
  destruct (gradient_tape_run_with s r states actions next_states
              (squeezed n rewards) (not_dones_of (squeezed 1 dones)) n e boot
              He eq_refl Ht) as (tape & Hrun & Htgt).
  { apply tf_binop_one; try assumption; try reflexivity.
    simpl. rewrite Dd. reflexivity. }
  { reflexivity. }
  set (block := fun v => gradient_tape v s r states actions next_states
                           (squeezed n rewards) (not_dones_of (squeezed 1 dones))).
  destruct (steps_frame s block) as ((Fa & Fla & _ & _ & Fo) & _).
  destruct (alpha_step_ok s (actor_step s (target_step (critic_step s block)) block)
              tape block) as (s' & Hs').
  { rewrite Fa, Fla, Fo. intros Ha. split.
    - exact (proj1 (gradient_tape_alpha_loss _ _ _ _ _ _ _ _ _ _ Hrun Ha)).
    - destruct (Ht Ha) as (? & _ & ?). auto. }
  exists (returned tape), s', (e_rng2 e). split.
  - unfold _train_body. rewrite (squeeze_column _ _ Sr), (squeeze_column _ _ Sd).
    rewrite Sr, Sd. cbn [length Nat.eqb assert bind].
    unfold train_steps, cast_float32. fold (not_dones_of (squeezed 1 dones)).
    fold block. rewrite Hrun. cbn [bind]. rewrite Hs'. reflexivity.
  - unfold returned. cbn [fst]. rewrite Htgt. reflexivity.
Qed.

(** *** One entry of the target *)

Lemma nth_zip_with {A A' C} (f : A -> A' -> C) d d1 d2 : forall l k i,
  i < length l -> i < length k ->
  nth i (zip_with f l k) d = f (nth i l d1) (nth i k d2).
Proof.
  induction l as [|a l IH]; intros [|b k] [|i] Hl Hk; simpl in *; try lia; auto.
  apply IH; lia.
Qed.

Lemma nth_map_lt {A C} (f : A -> C) d d1 : forall l i,
  i < length l -> nth i (map f l) d = f (nth i l d1).
Proof.
  induction l as [|a l IH]; intros [|i] Hl; simpl in *; try lia; auto.
  apply IH; lia.
Qed.

(** X13.  The target is computed transition by transition: on a batch
    of [n] transitions, entry [i] of the target is
    [reward_i + ((1 - done_i) * discount) * soft_i], where [soft_i] is
    [min(Q1_target_i, Q2_target_i) - alpha * next_logp_i]; it reads no
    other entry of the batch.  So the target of a terminal transition
    ([done_i = 1]) is its reward (up to the sign of a zero reward) when
    the discount and [soft_i] are finite, whatever the other
    transitions of the batch are. *)
Theorem target_entry
    s r states actions next_states rewards dones weights n e i :
  shape rewards = [n; 1] -> shape dones = [n; 1] -> tuned s ->
  evaluates s r states actions next_states n e ->
  well_formed rewards -> well_formed dones ->
  well_formed (e_q1_target e) -> well_formed (e_q2_target e) ->
  well_formed (e_next_logp e) ->
  i < n ->
  let soft :=
    soft_next_value (alpha s) (e_q1_target e) (e_q2_target e) (e_next_logp e) in
  let reward := nth i (data rewards) F32.nan in
  let flag := nth i (data dones) F32.nan in
  let next := nth i (data soft) F32.nan in
  exists tape s' r',
    _train_body s r states actions next_states rewards dones weights
    = Ok (returned tape, s', r') /\
    next = F32.sub (tf_minimum (nth i (data (e_q1_target e)) F32.nan)
                      (nth i (data (e_q2_target e)) F32.nan))
             (F32.mul (alpha s) (nth i (data (e_next_logp e)) F32.nan)) /\
    nth i (data (value (target_q tape))) F32.nan
    = F32.add reward (F32.mul (F32.mul (F32.sub F32.one flag) (discount s)) next) /\
    (flag = F32.one ->
     F32.is_finite (discount s) = true -> F32.is_finite next = true ->
     F32.same (nth i (data (value (target_q tape))) F32.nan) reward).
Proof.
  intros Sr Sd Ht He Wr Wd W1 W2 W3 Hi soft reward flag next.
  destruct (train_body_run _ _ _ _ _ _ _ weights _ _ Sr Sd He Ht) as (s' & _ & Hrun).
  exists (tape_of s e (squeezed n rewards) (not_dones_of (squeezed n dones))),
    s', (e_rng2 e).
  split; [exact Hrun |].
  pose proof He as (_ & _ & _ & _ & _ & S3 & _ & S4 & _ & S5 & _).
  unfold well_formed in *. rewrite Sr in Wr. rewrite Sd in Wd.
  rewrite S4 in W1. rewrite S5 in W2. rewrite S3 in W3. simpl in Wr, Wd, W1, W2, W3.
  rewrite Nat.mul_1_r in Wr, Wd, W1, W2, W3.
  assert (Ls : length (data soft) = n).
  { unfold soft, soft_next_value, vzip. simpl.
    rewrite !length_zip_with, length_map. lia. }
  assert (Hnext : next
                  = F32.sub (tf_minimum (nth i (data (e_q1_target e)) F32.nan)
                               (nth i (data (e_q2_target e)) F32.nan))
                      (F32.mul (alpha s) (nth i (data (e_next_logp e)) F32.nan))).
  { unfold next, soft, soft_next_value, vzip. simpl.
    rewrite (nth_zip_with F32.sub F32.nan F32.nan F32.nan)
      by (repeat (rewrite length_zip_with || rewrite length_map); lia).
    rewrite (nth_zip_with tf_minimum F32.nan F32.nan F32.nan) by lia.
    rewrite (nth_map_lt (F32.mul (alpha s)) F32.nan F32.nan) by lia.
    reflexivity. }
  assert (Htgt : nth i (data (value (target_q
                         (tape_of s e (squeezed n rewards)
                            (not_dones_of (squeezed n dones)))))) F32.nan
                 = F32.add reward
                     (F32.mul (F32.mul (F32.sub F32.one flag) (discount s)) next)).
  { unfold tape_of, value, constant, regression_target, vzip, not_dones_of, squeezed.
    simpl. fold soft.
    rewrite (nth_zip_with F32.add F32.nan F32.nan F32.nan)
      by (repeat (rewrite length_zip_with || rewrite length_map); lia).
    rewrite (nth_zip_with F32.mul F32.nan F32.nan F32.nan)
      by (repeat (rewrite length_zip_with || rewrite length_map); lia).
    rewrite (nth_map_lt (fun e0 => F32.mul e0 (discount s)) F32.nan F32.nan)
      by (repeat (rewrite length_zip_with || rewrite length_map); lia).
    rewrite (nth_map_lt (fun d => F32.sub F32.one d) F32.nan F32.nan) by lia.
    reflexivity. }
  split; [exact Hnext |]. split; [exact Htgt |].
  intros Hd Hg Hf. rewrite Htgt, Hd.
  apply add_zero_same, masked_is_zero; assumption.
Qed.

End Properties.

(* ================================================================= *)
(** ** The theorems on the concrete agent *)

Module Concrete.

Import Toy Scenario.

(** *** The operations on tensors *)

Example broadcast_column_and_row :
  tf_binop F32.add {| shape := [2; 1]; data := map num [10; 20]%Z |}
    {| shape := [2]; data := map num [1; 2]%Z |}
  = Ok {| shape := [2; 2]; data := map num [11; 12; 21; 22]%Z |}.
Proof. vm_compute. reflexivity. Qed.

Example broadcast_mismatch :
  tf_binop F32.add {| shape := [2; 3]; data := map num [1; 2; 3; 4; 5; 6]%Z |}
    {| shape := [2]; data := map num [10; 20]%Z |}
  = Raise ShapeError.
Proof. reflexivity. Qed.

Example concat_features :
  concat_axis1 {| shape := [2; 2]; data := map num [1; 2; 3; 4]%Z |}
    {| shape := [2; 1]; data := map num [10; 20]%Z |}
  = Ok {| shape := [2; 3]; data := map num [1; 2; 10; 3; 4; 20]%Z |}.
Proof. reflexivity. Qed.

Example squeeze_a_column : squeeze_axis1 rewards = Ok (vec [1; 0]%Z).
Proof. reflexivity. Qed.

Example squeeze_a_vector : squeeze_axis1 (vec [1; 0]%Z) = Raise ShapeError.
Proof. reflexivity. Qed.

Example first_row :
  index0 {| shape := [2; 2]; data := map num [1; 2; 3; 4]%Z |} = Ok (vec [1; 2]%Z).
Proof. reflexivity. Qed.

(** [Q(s, a) = s + a] for the critics that the constructor leaves. *)
Example critic_on_the_batch :
  CriticQ_call (qf1 (agent false)) states actions = Ok (vec [4; 5]%Z).
Proof. vm_compute. reflexivity. Qed.

(** *** The theorems *)

(** The first transition bootstraps, the second is terminal and its
    target is its reward, 0. *)
Lemma critic_target_and_loss_witness :
  exists tape s' r',
    _train_body (agent false) seed states actions next_states rewards dones
      (ones_like rewards) = Ok (returned tape, s', r') /\
    data (value (target_q tape))
    = [S754_finite false 14969471 (-21); S754_zero false].
Proof.
  destruct (critic_target_and_loss (agent false) seed states actions next_states
              rewards dones (ones_like rewards) 2
              (evaluation_of (agent false) next_states)
              eq_refl eq_refl ltac:(intros H; discriminate H)
              ltac:(vm_compute; repeat split; reflexivity))
    as (tape & s' & r' & Htape & Hrun & _).
  exists tape, s', r'. split; [exact Hrun |].
  vm_compute in Htape. injection Htape as <- _. reflexivity.
Defined.

Lemma actor_loss_witness :
  exists tape s' r',
    _train_body (agent false) seed states actions next_states rewards dones
      (ones_like rewards) = Ok (returned tape, s', r') /\
    value (policy_loss tape) = S754_finite true 12373197 (-21).
Proof.
  destruct (actor_loss (agent false) seed states actions next_states
              rewards dones (ones_like rewards) 2
              (evaluation_of (agent false) next_states)
              eq_refl eq_refl ltac:(intros H; discriminate H)
              ltac:(vm_compute; repeat split; reflexivity))
    as (tape & s' & r' & Htape & Hrun & _).
  exists tape, s', r'. split; [exact Hrun |].
  vm_compute in Htape. injection Htape as <- _. vm_compute. reflexivity.
Defined.

(** The target critic is updated from the first critic that the
    gradient step has produced, and that step has moved its kernel
    from [(1, 1)] to about [(0.893, 0.981)]: the gradient of the loss
    against the target [(7.14, 0)] at [Q1 = (4, 5)]. *)
Lemma target_update_after_critic_step_witness :
  exists tape s' r',
    _train_body (agent false) seed states actions next_states rewards dones
      (ones_like rewards) = Ok (returned tape, s', r') /\
    qf1_target s'
    = CriticQ_assign (qf1_target (agent false))
        (update_target_variables (CriticQ_weights (qf1_target (agent false)))
           (CriticQ_weights (qf1 s')) (tau (agent false))) /\
    data (kernel (out_layer (qf1 (agent false)))) = [num 1; num 1] /\
    data (kernel (out_layer (qf1 s')))
    = [S754_finite false 14984806 (-24); S754_finite false 16463544 (-24)].
Proof.
  destruct (target_update_after_critic_step (agent false) seed states actions
              next_states rewards dones (ones_like rewards) 2
              (evaluation_of (agent false) next_states)
              eq_refl eq_refl ltac:(intros H; discriminate H)
              ltac:(vm_compute; repeat split; reflexivity))
    as (tape & s' & r' & _ & Hrun & _ & _ & _ & _ & _ & _ & H1 & _ & H3 & _ & _
        & Hq1 & _).
  exists tape, s', r'. split; [exact Hrun |].
  split; [rewrite H1; exact H3 |].
  split; [vm_compute; reflexivity |].
  rewrite Hq1. vm_compute. reflexivity.
Defined.

Lemma terminal_batch_target_witness :
  exists tape s' r',
    _train_body (agent false) seed states actions next_states rewards all_done
      (ones_like rewards) = Ok (returned tape, s', r') /\
    Forall2 F32.same (data (value (target_q tape))) (data rewards).
Proof.
  destruct (terminal_batch_target (agent false) seed states actions next_states
              rewards all_done (ones_like rewards) 2
              (evaluation_of (agent false) next_states)
              eq_refl eq_refl ltac:(intros H; discriminate H)
              ltac:(vm_compute; repeat split; reflexivity)
              eq_refl eq_refl eq_refl eq_refl eq_refl
              ltac:(repeat constructor)
              eq_refl
              ltac:(vm_compute; repeat constructor))
    as (tape & s' & r' & Hrun & _ & _ & _ & Hsame & _).
  exists tape, s', r'. split; [exact Hrun | exact Hsame].
Defined.

Lemma rank_assertions_and_squeeze_witness :
  _train_body (agent false) seed states actions next_states (vec [1; 0]%Z) dones
    (ones_like rewards) = Raise AssertionError /\
  _train_body (agent false) seed states actions next_states rewards dones
    (ones_like rewards)
  = train_steps (agent false) seed states actions next_states
      (squeezed 2 rewards) (squeezed 2 dones) /\
  _train_body (agent false) seed states actions next_states wide_rewards dones
    (ones_like rewards) = Raise ShapeError.
Proof.
  split; [| split].
  - apply (rank_assertions_and_squeeze (agent false) seed states actions next_states
             (vec [1; 0]%Z) dones (ones_like rewards)).
    right. simpl. lia.
  - apply (rank_assertions_and_squeeze (agent false) seed states actions next_states
             rewards dones (ones_like rewards)); reflexivity.
  - apply (rank_assertions_and_squeeze (agent false) seed states actions next_states
             wide_rewards dones (ones_like rewards)); try reflexivity.
    left. simpl. lia.
Defined.

Lemma single_observation_witness :
  exists action logp r',
    get_action (agent false) seed (vec [3]%Z) false = Ok (action, logp, r') /\
    shape action = [1] /\ shape logp = [].
Proof.
  destruct (single_observation (agent false) seed (vec [3]%Z) false 1
              {| shape := [1; 1]; data := [num 1] |}
              {| shape := [1]; data := [num (-1)] |} 2%Z
              eq_refl ltac:(vm_compute; reflexivity) eq_refl eq_refl)
    as (_ & _ & action & logp & Hget & Sa & _ & Sl & _).
  exists action, logp, 2%Z. auto.
Defined.

Lemma temperature_tuning_witness :
  target_alpha (agent true) = Some (-1)%Z /\
  exists tape s' r' la',
    _train_body (agent true) seed states actions next_states rewards dones
      (ones_like rewards) = Ok (returned tape, s', r') /\
    log_alpha s' = Some la' /\ alpha s' = tf_exp la'.
Proof.
  destruct temperature_tuning as (Hinit & Hstep). split.
  - apply (Hinit (args true) nets (agent true) (reach_init _ _) eq_refl).
  - destruct (Hstep (agent true) seed states actions next_states
                rewards dones (ones_like rewards) 2
                (evaluation_of (agent true) next_states) F32.zero (-1)%Z
                eq_refl eq_refl ltac:(intros _; repeat split; eexists; reflexivity)
                ltac:(vm_compute; repeat split; reflexivity)
                eq_refl eq_refl eq_refl)
      as (tape & l & s' & r' & la' & _ & Hrun & _ & _ & _ & Hla & Hal & _).
    exists tape, s', r', la'. auto.
Defined.

Lemma unwrap_ok {A} (d : A) (m : result A) :
  is_ok m = true -> m = Ok (unwrap d m).
Proof. destruct m; [reflexivity | discriminate]. Defined.

(** The step moves the first critic and leaves [alpha] where it
    was. *)
Lemma fixed_alpha_is_kept_witness :
  train (agent false) seed states actions next_states rewards dones None
  = Ok (trained false) /\
  alpha (snd (fst (trained false))) = alpha (agent false) /\
  data (kernel (out_layer (qf1 (snd (fst (trained false))))))
  <> data (kernel (out_layer (qf1 (agent false)))).
Proof.
  assert (E : train (agent false) seed states actions next_states rewards dones None
              = Ok (trained false)).
  { apply unwrap_ok. vm_compute. reflexivity. }
  split; [exact E |]. split.
  - destruct fixed_alpha_is_kept as (_ & Htrain & _).
    destruct (trained false) as [[[td log] s'] r'] eqn:Et.
    exact (proj1 (Htrain (agent false) seed states actions next_states rewards dones
                    None td log s' r' eq_refl E)).
  - vm_compute. discriminate.
Defined.

Lemma td_error_query_raises_witness :
  compute_td_error (agent true) false states actions next_states
    (vec [1; 0]%Z) (vec [0; 1]%Z)
  = Raise (AttributeError "vf_target").
Proof.
  destruct (td_error_query_raises (args true) nets (agent true) (reach_init _ _)
              false states actions next_states (vec [1; 0]%Z) (vec [0; 1]%Z))
    as (_ & Hbody).
  unfold compute_td_error. cbn [bind].
  rewrite (Hbody (unwrap nothing (CriticQ_call (qf1 (agent true)) states actions))
             ltac:(vm_compute; reflexivity)).
  reflexivity.
Defined.

(** With another actor for the variables under differentiation, the
    soft value of the next states follows the actor, and the target,
    which is behind [tf.stop_gradient], stays where it is. *)
Example target_does_not_follow_the_actor :
  match gradient_tape shifted (agent false) seed states actions next_states
          (squeezed 2 rewards) (not_dones_of (squeezed 2 dones)) with
  | Ok (t, _) =>
      data (live (soft_next_q t)) <> data (frozen (soft_next_q t)) /\
      live (target_q t) = frozen (target_q t)
  | Raise _ => False
  end.
Proof. vm_compute. split; [discriminate | reflexivity]. Qed.

(** *** Where two claims of the specification fail *)

(** Rewards of rank 2 and of shape [(2, 3)] pass the two assertions
    and are not squeezed: [tf.squeeze] rejects them. *)
Lemma wide_rewards_are_not_squeezed :
  length (shape wide_rewards) = 2 /\ length (shape dones) = 2 /\
  squeeze_axis1 wide_rewards = Raise ShapeError /\
  error_of
    (_train_body (agent false) seed states actions next_states wide_rewards dones
       (ones_like wide_rewards))
  = Some ShapeError.
Proof. repeat split; vm_compute; reflexivity. Qed.

(** Every entry of [dones] is 1 and every input is finite; the target
    critics overflow on the next states, the bootstrap term is
    [0 * inf] and the target is not the rewards [(1, 0)]. *)
Lemma overflowing_target_is_nan :
  data all_done = [F32.one; F32.one] /\
  data rewards = [F32.of_Z 1; F32.of_Z 0] /\
  Forall (fun x => F32.is_finite x = true) (data far_states) /\
  target_returned
    (_train_body steep_agent seed states actions far_states rewards all_done
       (ones_like rewards))
  = Some {| shape := [2]; data := [F32.nan; F32.nan] |}.
Proof.
  split; [reflexivity |]. split; [reflexivity |].
  split; [repeat constructor |].
  vm_compute. reflexivity.
Qed.

(** *** More on the concrete agent *)

(** States of rank 1 where the actions are of rank 2. *)
Lemma critic_rejects_mismatched_inputs_witness :
  CriticQ_call (qf1 (agent false)) (vec [3; 4]%Z) actions = Raise ShapeError /\
  _train_body (agent false) seed (vec [3; 4]%Z) actions next_states rewards dones
    (ones_like rewards) = Raise ShapeError.
Proof.
  destruct (critic_rejects_mismatched_inputs (qf1 (agent false)) (vec [3; 4]%Z) actions
              ltac:(left; simpl; lia)) as (Hcall & Hbody).
  split; [exact Hcall |].
  apply (Hbody (agent false) seed next_states rewards dones (ones_like rewards) 2 2);
    reflexivity.
Defined.

(** Images of 4 by 4 for states, and states of one dimension. *)
Lemma constructor_needs_flat_states_witness :
  CriticQ_dummy_call (critic 1 2 0) [4; 4] 1 = Raise ShapeError /\
  concat_axis1 (dummy_state [1]) (dummy_action 1) = Ok (zeros [1; 2]).
Proof.
  destruct (constructor_needs_flat_states (critic 1 2 0) [4; 4] 1) as (Hraise & _).
  destruct (constructor_needs_flat_states (critic 1 2 0) [1] 1) as (_ & Hflat).
  split; [apply Hraise; simpl; lia | apply (Hflat 1); reflexivity].
Defined.

Lemma dense_is_read_back : assignment_is_read_back.
Proof.
  intros l ws H. destruct ws as [|k [|b [|c ws]]]; try discriminate H. reflexivity.
Qed.

(** The first critic is constructed with the kernel [(1, 2)] and
    leaves the constructor with the kernel [(1, 1)] of its target. *)
Lemma constructor_copies_the_target_critics_witness :
  CriticQ_weights (qf1 (agent false)) = CriticQ_weights (qf1_target (agent false)) /\
  data (kernel (out_layer (new_qf1 nets))) = [num 1; num 2] /\
  data (kernel (out_layer (qf1 (agent false)))) = [num 1; num 1].
Proof.
  destruct (constructor_copies_the_target_critics (args false) nets
              dense_is_read_back eq_refl eq_refl
              ltac:(vm_compute; reflexivity) ltac:(vm_compute; reflexivity))
    as (H1 & _).
  split; [exact H1 |]. split; [reflexivity | vm_compute; reflexivity].
Defined.

Lemma get_logp_agrees_with_get_action_witness :
  get_logp (agent false) seed (vec [3]%Z)
  = Ok ({| shape := []; data := [num (-1)] |}, 2%Z).
Proof.
  apply (get_logp_agrees_with_get_action (agent false) seed (vec [3]%Z)
           {| shape := [1]; data := [num 1] |}).
  vm_compute. reflexivity.
Defined.

(** Rewards of rank 1: the assertion of the body fails, and [train]
    raises it. *)
Lemma train_raises_what_its_body_raises_witness :
  train (agent false) seed states actions next_states (vec [1; 0]%Z) dones None
  = Raise AssertionError.
Proof.
  apply (train_raises_what_its_body_raises (agent false) seed states actions
           next_states (vec [1; 0]%Z) dones None AssertionError).
  reflexivity.
Defined.

Lemma train_returns auto :
  train (agent auto) seed states actions next_states rewards dones None
  = Ok (trained auto).
Proof. destruct auto; apply unwrap_ok; vm_compute; reflexivity. Qed.

Lemma train_body_returns :
  is_ok (_train_body (agent false) seed states actions next_states rewards dones
           (ones_like rewards)) = true.
Proof. vm_compute. reflexivity. Qed.

(** With [auto_alpha], the step writes nine scalars, and the last is
    the exponential of the [log_alpha] that it has assigned. *)
Lemma train_logs_the_updated_temperature_witness :
  exists td log s' r' la',
    train (agent true) seed states actions next_states rewards dones None
    = Ok (td, log, s', r') /\
    log_alpha s' = Some la' /\
    skipn 8 log = [("SAC/ent"%string, tf_exp la')].
Proof.
  pose proof (train_returns true) as E.
  destruct (trained true) as [[[td log] s'] r'].
  destruct (train_logs_the_updated_temperature (agent true) seed states actions
              next_states rewards dones None td log s' r' E)
    as (al & q1 & q1l & lmin & lmax & lmean & _ & _ & _ & Hon).
  destruct (Hon eq_refl) as (la' & ta & Hla & _ & Hlog).
  exists td, log, s', r', la'. split; [exact E |]. split; [exact Hla |].
  change 8 with (2 + 6). rewrite <- skipn_skipn, Hlog. reflexivity.
Defined.

(** On the batch, [Q1] is [(4, 5)] and the target about [(7.14, 0)];
    [train] returns the target. *)
Lemma train_returns_the_target_witness :
  exists td log s' r',
    train (agent false) seed states actions next_states rewards dones None
    = Ok (td, log, s', r') /\
    data td = [S754_finite false 14969471 (-21); S754_zero false] /\
    CriticQ_call (qf1 (agent false)) states actions = Ok (vec [4; 5]%Z).
Proof.
  destruct (train_returns_the_target (agent false) seed states actions next_states
              rewards dones None 2 (evaluation_of (agent false) next_states)
              eq_refl eq_refl ltac:(intros H; discriminate H)
              ltac:(vm_compute; repeat split; reflexivity))
    as (log & s' & r' & Hrun).
  eexists _, log, s', r'. split; [exact Hrun |].
  split; vm_compute; reflexivity.
Defined.

Lemma gradient_steps_start_from_the_recorded_agent_witness :
  exists out s' r',
    _train_body (agent false) seed states actions next_states rewards dones
      (ones_like rewards) = Ok (out, s', r') /\
    actor s'
    = actor (actor_step (agent false) (agent false)
               (fun v => gradient_tape v (agent false) seed states actions next_states
                           (squeezed 2 rewards) (not_dones_of (squeezed 2 dones)))).
Proof.
  pose proof (unwrap_ok (nothing, F32.zero, nothing, F32.zero, F32.zero, F32.zero,
                         F32.zero, agent false, 0%Z) _ train_body_returns) as E.
  destruct (unwrap _ _) as [[out s'] r'].
  destruct (gradient_steps_start_from_the_recorded_agent (agent false) seed states
              actions next_states rewards dones (ones_like rewards) out s' r' E)
    as (rw & dn & Er & Ed & Ha & _).
  exists out, s', r'. split; [exact E |].
  injection Er as <-. injection Ed as <-. exact Ha.
Defined.

(** After a training step. *)
Lemma hyper_parameters_are_those_of_the_constructor_witness :
  tau (snd (fst (trained false))) = ratio 1 200 /\
  discount (snd (fst (trained false))) = ratio 99 100 /\
  state_ndim (snd (fst (trained false))) = 1.
Proof.
  pose proof (train_returns false) as E.
  destruct (trained false) as [[[td log] s'] r'].
  destruct (hyper_parameters_are_those_of_the_constructor (args false) nets s'
              (reach_train _ _ _ _ _ _ _ (reach_init _ _) E))
    as (H1 & H2 & _ & H4 & _).
  simpl. auto.
Defined.

Lemma temperature_attributes_witness :
  (exists la, log_alpha (snd (fst (trained true))) = Some la /\
              alpha (snd (fst (trained true))) = tf_exp la) /\
  log_alpha (snd (fst (trained false))) = None.
Proof.
  split.
  - pose proof (train_returns true) as E.
    destruct (trained true) as [[[td log] s'] r'].
    destruct (temperature_attributes (args true) nets s'
                (reach_train _ _ _ _ _ _ _ (reach_init _ _) E))
      as (Hon & _).
    destruct (Hon eq_refl) as (la & o & Hla & Hal & _). simpl. eauto.
  - pose proof (train_returns false) as E.
    destruct (trained false) as [[[td log] s'] r'].
    destruct (temperature_attributes (args false) nets s'
                (reach_train _ _ _ _ _ _ _ (reach_init _ _) E))
      as (_ & Hoff).
    destruct (Hoff eq_refl) as (Hla & _). exact Hla.
Defined.

(** Three flags for a batch of two transitions. *)
Lemma batch_size_mismatch_is_rejected_witness :
  _train_body (agent false) seed states actions next_states rewards
    (column [0; 1; 1]%Z) (ones_like rewards) = Raise ShapeError.
Proof.
  apply (batch_size_mismatch_is_rejected (agent false) seed states actions next_states
           rewards (column [0; 1; 1]%Z) (ones_like rewards) 2 2 3
           (evaluation_of (agent false) next_states)
           eq_refl eq_refl ltac:(vm_compute; repeat split; reflexivity)).
  - lia.
  - left. lia.
Defined.

(** One flag, 1, for a batch of two transitions: both are taken for
    terminal, and the target is the rewards. *)
Lemma one_done_flag_is_broadcast_witness :
  exists out s' r',
    _train_body (agent false) seed states actions next_states rewards
      (column [1]%Z) (ones_like rewards) = Ok (out, s', r') /\
    fst (fst (fst (fst (fst (fst out))))) = vec [1; 0]%Z.
Proof.
  destruct (one_done_flag_is_broadcast (agent false) seed states actions next_states
              rewards (column [1]%Z) (ones_like rewards) 2
              (evaluation_of (agent false) next_states) (num 1)
              eq_refl eq_refl eq_refl ltac:(intros H; discriminate H)
              ltac:(vm_compute; repeat split; reflexivity)
              eq_refl eq_refl eq_refl)
    as (out & s' & r' & Hrun & Htgt).
  exists out, s', r'. split; [exact Hrun |].
  rewrite Htgt. vm_compute. reflexivity.
Defined.

(** The second transition of the batch is terminal, the first is
    not. *)
Lemma target_entry_witness :
  exists tape s' r',
    _train_body (agent false) seed states actions next_states rewards dones
      (ones_like rewards) = Ok (returned tape, s', r') /\
    F32.same (nth 1 (data (value (target_q tape))) F32.nan) (nth 1 (data rewards) F32.nan).
Proof.
  destruct (target_entry (agent false) seed states actions next_states
              rewards dones (ones_like rewards) 2
              (evaluation_of (agent false) next_states) 1
              eq_refl eq_refl ltac:(intros H; discriminate H)
              ltac:(vm_compute; repeat split; reflexivity)
              eq_refl eq_refl eq_refl eq_refl eq_refl
              ltac:(lia))
    as (tape & s' & r' & Hrun & _ & _ & Hterm).
  exists tape, s', r'. split; [exact Hrun |].
  apply Hterm; vm_compute; reflexivity.
Defined.

End Concrete.
